(** * Connection health of the HTTP beacon-node client

    A shallow embedding of [http/service.go] (package [http] of
    go-eth2-client): the [Service] struct, its constructor [New], the
    liveness probe [ping] with its probe gate and transition side
    effects, [clearStaticValues], [checkDVT] and the guards
    [assertIsActive] / [assertIsSynced].

    Methods on [*Service] are computations in a state monad whose state
    is the service value together with the outside world (the remote
    node's scripted replies and the trace of observable events).  The
    field mutexes only matter under true concurrency; the embedding is
    sequential and keeps the probe gate ([pingSem]) as data, so that a
    permit held by another, in-flight probe is a state of the model;
    module [goroutine] cuts [ping] at its critical sections to run two
    of them interleaved.  Logging statements change neither the service
    nor a result and are left out. *)

From Stdlib Require Import String Ascii List Bool ZArith Lia.
From ExtLib Require Import Structures.Monad Structures.MonadState.
From ExtLib Require Import Data.Monads.StateMonad.
Import ListNotations.
Import MonadNotation.
Local Open Scope monad_scope.
Local Open Scope Z_scope.

Set Implicit Arguments.

(** ** Errors, results and contexts *)

(** Go's [error] values that occur in the file: the two sentinels of the
    [client] package, [errors.New] and [errors.Join]. *)
Inductive error : Type :=
| ErrNotActive
| ErrNotSynced
| errors_New (msg : string)
| errors_Join (e1 e2 : error).

(** A Go result pair [(T, error)] of a call that returns either a value
    or an error. *)
Inductive Result (A : Type) : Type :=
| Ok (a : A)
| Fail (e : error).
Arguments Ok {A} a.
Arguments Fail {A} e.

(** [context.Context]: the background context, or a cancellable child. *)
Inductive Context : Type :=
| context_Background
| context_WithCancel (parent : Context) (cancelled : bool).

Definition context_Canceled : error := errors_New "context canceled".

(** [ctx.Err()]: non-nil as soon as the context or one of its ancestors
    was cancelled. *)
Fixpoint ctx_Err (ctx : Context) : option error :=
  match ctx with
  | context_Background => None
  | context_WithCancel parent cancelled =>
      if cancelled then Some context_Canceled else ctx_Err parent
  end.

(** ** Strings *)

(** [strings.HasPrefix(s, prefix)]. *)
Definition strings_HasPrefix (s pre : string) : bool := String.prefix pre s.

(** [strings.HasSuffix(s, suffix)]:
    [len(s) >= len(suffix) && s[len(s)-len(suffix):] == suffix]. *)
Definition strings_HasSuffix (s suffix : string) : bool :=
  (String.length suffix <=? String.length s)%nat &&
  String.eqb
    (String.substring (String.length s - String.length suffix)
       (String.length suffix) s)
    suffix.

(** One byte of [strings.ToLower] on its ASCII path: ['A'..'Z'] are
    shifted by ['a' - 'A'], every other byte is kept. *)
Definition lower_byte (c : ascii) : ascii :=
  let n := nat_of_ascii c in
  if ((65 <=? n) && (n <=? 90))%nat then ascii_of_nat (n + 32) else c.

Fixpoint strings_ToLower (s : string) : string :=
  match s with
  | EmptyString => EmptyString
  | String c rest => String (lower_byte c) (strings_ToLower rest)
  end.

(** [strings.Contains(s, substr)] is [strings.Index(s, substr) >= 0]. *)
Definition strings_Contains (s substr : string) : bool :=
  match String.index 0 substr s with
  | Some _ => true
  | None => false
  end.

(** ** The probe gate: [semaphore.Weighted] *)

Module semaphore.

(** [size] permits in total, [cur] of them handed out.  Nothing in the
    package blocks on the gate, so there are never waiters. *)
Record Weighted : Type := { size : Z; cur : Z }.

Definition NewWeighted (n : Z) : Weighted := {| size := n; cur := 0 |}.

(** [TryAcquire(n)]: succeeds, without blocking, iff [n] permits are
    left. *)
Definition TryAcquire (n : Z) (s : Weighted) : bool * Weighted :=
  if n <=? size s - cur s
  then (true, {| size := size s; cur := cur s + n |})
  else (false, s).

(** [Release(n)]: hands [n] permits back.  (The library panics when
    more is released than held; [ping] releases exactly the permit it
    has just acquired.) *)
Definition Release (n : Z) (s : Weighted) : Weighted :=
  {| size := size s; cur := cur s - n |}.

End semaphore.

(** ** The remote node and the observable events *)

(** [apiv1.SyncState], the payload of the sync-status call; the two
    counters are [uint64]. *)
Record SyncState : Type := {
  IsSyncing : bool;
  HeadSlot : Z;
  SyncDistance : Z
}.

(** Goroutines started by [New]. *)
Inductive Task : Type :=
| periodicClearStaticValues_loop
| periodicPing_loop
| close_on_done.

(** What the service does to the outside: requests on the wire, metric
    updates and goroutines started. *)
Inductive Event : Type :=
| EvNodeSyncing
| EvNodeVersion
| EvMonitorActive (active : bool)
| EvMonitorSynced (synced : bool)
| EvGo (t : Task).

(** The world outside the service: the replies the node gives to the
    coming sync-status and version requests (an exhausted script is an
    unreachable node) and the events so far, oldest first. *)
Record World : Type := {
  syncingReplies : list (Result SyncState);
  versionReplies : list (Result string);
  trace : list Event
}.

Definition emit (e : Event) (w : World) : World :=
  {| syncingReplies := syncingReplies w;
     versionReplies := versionReplies w;
     trace := trace w ++ [e] |}.

Definition unreachable : error := errors_New "connection refused".

(** The next reply to a sync-status request, and the world after it. *)
Definition take_syncing (w : World) : Result SyncState * World :=
  match syncingReplies w with
  | [] => (Fail unreachable, w)
  | r :: rest =>
      (r, {| syncingReplies := rest;
             versionReplies := versionReplies w;
             trace := trace w |})
  end.

(** The next reply to a version request, and the world after it. *)
Definition take_version (w : World) : Result string * World :=
  match versionReplies w with
  | [] => (Fail unreachable, w)
  | r :: rest =>
      (r, {| syncingReplies := syncingReplies w;
             versionReplies := rest;
             trace := trace w |})
  end.

Definition Event_eqb (a b : Event) : bool :=
  match a, b with
  | EvNodeSyncing, EvNodeSyncing => true
  | EvNodeVersion, EvNodeVersion => true
  | EvMonitorActive x, EvMonitorActive y => Bool.eqb x y
  | EvMonitorSynced x, EvMonitorSynced y => Bool.eqb x y
  | EvGo periodicClearStaticValues_loop, EvGo periodicClearStaticValues_loop => true
  | EvGo periodicPing_loop, EvGo periodicPing_loop => true
  | EvGo close_on_done, EvGo close_on_done => true
  | _, _ => false
  end.

(** How often event [e] occurs in a trace. *)
Definition occurrences (e : Event) (t : list Event) : nat :=
  List.length (List.filter (Event_eqb e) t).

(** ** The service *)

Section Service.

(** Payload types declared in other packages ([apiv1.Genesis],
    [apiv1.DepositContract], [phase0.Fork], the values of the spec map,
    [url.URL]) and the metrics monitor. *)
Context {Genesis DepositContract Fork SpecValue URL Monitor : Type}.

(** [type Service struct].  The logger, the [http.Client] and the
    mutexes are not represented; a nil pointer, map or slice is [None]. *)
Record Service : Type := {
  base : URL;
  address : string;
  timeout : Z;

  genesis : option Genesis;
  spec : option (list (string * SpecValue));
  depositContract : option DepositContract;
  forkSchedule : option (list Fork);
  nodeVersion : string;

  userIndexChunkSize : Z;
  userPubKeyChunkSize : Z;
  extraHeaders : list (string * string);

  pingSem : semaphore.Weighted;
  connectionActive : bool;
  connectionSynced : bool;
  enforceJSON : bool;
  connectedToDVTMiddleware : bool
}.

(** Field assignments [s.f = v]. *)
Definition set_static
    (g : option Genesis) (sp : option (list (string * SpecValue)))
    (dc : option DepositContract) (fs : option (list Fork)) (nv : string)
    (s : Service) : Service :=
  {| base := base s; address := address s; timeout := timeout s;
     genesis := g; spec := sp; depositContract := dc; forkSchedule := fs;
     nodeVersion := nv;
     userIndexChunkSize := userIndexChunkSize s;
     userPubKeyChunkSize := userPubKeyChunkSize s;
     extraHeaders := extraHeaders s;
     pingSem := pingSem s;
     connectionActive := connectionActive s;
     connectionSynced := connectionSynced s;
     enforceJSON := enforceJSON s;
     connectedToDVTMiddleware := connectedToDVTMiddleware s |}.

Definition set_genesis (g : option Genesis) (s : Service) : Service :=
  set_static g (spec s) (depositContract s) (forkSchedule s) (nodeVersion s) s.

Definition set_spec (sp : option (list (string * SpecValue))) (s : Service)
  : Service :=
  set_static (genesis s) sp (depositContract s) (forkSchedule s) (nodeVersion s) s.

Definition set_depositContract (dc : option DepositContract) (s : Service)
  : Service :=
  set_static (genesis s) (spec s) dc (forkSchedule s) (nodeVersion s) s.

Definition set_forkSchedule (fs : option (list Fork)) (s : Service) : Service :=
  set_static (genesis s) (spec s) (depositContract s) fs (nodeVersion s) s.

Definition set_nodeVersion (nv : string) (s : Service) : Service :=
  set_static (genesis s) (spec s) (depositContract s) (forkSchedule s) nv s.

Definition set_conn
    (sem : semaphore.Weighted) (active synced dvt : bool) (s : Service)
  : Service :=
  {| base := base s; address := address s; timeout := timeout s;
     genesis := genesis s; spec := spec s;
     depositContract := depositContract s; forkSchedule := forkSchedule s;
     nodeVersion := nodeVersion s;
     userIndexChunkSize := userIndexChunkSize s;
     userPubKeyChunkSize := userPubKeyChunkSize s;
     extraHeaders := extraHeaders s;
     pingSem := sem;
     connectionActive := active;
     connectionSynced := synced;
     enforceJSON := enforceJSON s;
     connectedToDVTMiddleware := dvt |}.

Definition set_pingSem (sem : semaphore.Weighted) (s : Service) : Service :=
  set_conn sem (connectionActive s) (connectionSynced s)
    (connectedToDVTMiddleware s) s.

Definition set_connectionActive (b : bool) (s : Service) : Service :=
  set_conn (pingSem s) b (connectionSynced s) (connectedToDVTMiddleware s) s.

Definition set_connectionSynced (b : bool) (s : Service) : Service :=
  set_conn (pingSem s) (connectionActive s) b (connectedToDVTMiddleware s) s.

Definition set_connectedToDVTMiddleware (b : bool) (s : Service) : Service :=
  set_conn (pingSem s) (connectionActive s) (connectionSynced s) b s.

(** A method on [*Service]: it reads and writes the service and the
    world and returns a value. *)
Abbreviation M := (state (Service * World)).

Definition read {A : Type} (f : Service -> A) : M A :=
  st <- get ;; ret (f (fst st)).

Definition write (f : Service -> Service) : M unit :=
  st <- get ;; put (f (fst st), snd st).

Definition observe (e : Event) : M unit :=
  st <- get ;; put (fst st, emit e (snd st)).

(** ** Calls to the node *)

(** Modelled from the spec: [NodeSyncing] ([http/nodesyncing.go] is not
    part of the sources at hand).  "Sync-status call: outbound request
    with no parameters; inbound response [{isSyncing, headSlot,
    syncDistance}] or a transport error."  A request under a cancelled
    context is aborted before it reaches the wire. *)
Definition NodeSyncing (ctx : Context) : M (Result SyncState) :=
  match ctx_Err ctx with
  | Some err => ret (Fail err)
  | None =>
      observe EvNodeSyncing ;;
      st <- get ;;
      let (r, w) := take_syncing (snd st) in
      put (fst st, w) ;;
      ret r
  end.

(** Modelled from the spec: [NodeVersion] ([http/nodeversion.go] is not
    part of the sources at hand), the accessor of the node-version
    fact.  "[get() -> T], fetches and populates on first call after
    being empty, returns the cached value otherwise, fails with
    [FetchError] if the underlying request fails (failure does not
    populate the cache)."  The fetch is the version call: "outbound
    request with no parameters; inbound response [{versionString}] or a
    transport error." *)
Definition NodeVersion (ctx : Context) : M (Result string) :=
  cached <- read nodeVersion ;;
  if negb (String.eqb cached "")
  then ret (Ok cached)
  else
    match ctx_Err ctx with
    | Some err => ret (Fail err)
    | None =>
        observe EvNodeVersion ;;
        st <- get ;;
        let (r, w) := take_version (snd st) in
        put (fst st, w) ;;
        match r with
        | Ok version => write (set_nodeVersion version) ;; ret (Ok version)
        | Fail err => ret (Fail err)
        end
    end.

(** Modelled from the spec: [monitorActive] and [monitorSynced]
    ([http/metrics.go] is not part of the sources at hand) publish the
    state to the metrics sink. *)
Definition monitorActive (active : bool) : M unit :=
  observe (EvMonitorActive active).

Definition monitorSynced (synced : bool) : M unit :=
  observe (EvMonitorSynced synced).

(** ** Static values and middleware detection *)

(** [func (s *Service) clearStaticValues()]. *)
Definition clearStaticValues : M unit :=
  write (set_genesis None) ;;
  write (set_spec None) ;;
  write (set_depositContract None) ;;
  write (set_forkSchedule None) ;;
  write (set_nodeVersion "").

(** [func (s *Service) checkDVT(ctx) error]. *)
Definition checkDVT (ctx : Context) : M (option error) :=
  r <- NodeVersion ctx ;;
  match r with
  | Fail err =>
      ret (Some (errors_Join
                   (errors_New "failed to obtain node version for DVT check")
                   err))
  | Ok response =>
      let version := strings_ToLower response in
      (if strings_Contains version "charon"
       then write (set_connectedToDVTMiddleware true)
       else ret tt) ;;
      ret None
  end.

(** [func (s *Service) Name() string]. *)
Definition Name : M string := ret "Standard (HTTP)"%string.

(** [func (s *Service) Address() string]. *)
Definition Address : M string := read address.

(** [func (s *Service) close()]: nothing to free. *)
Definition close : M unit := ret tt.

(** ** The probe *)

(** The sync rule of [ping]:
    [(!IsSyncing) || (HeadSlot == 0 && SyncDistance <= 1)]. *)
Definition synced_of (data : SyncState) : bool :=
  negb (IsSyncing data) || ((HeadSlot data =? 0) && (SyncDistance data <=? 1)).

(** [s.pingSem.TryAcquire(1)] and [s.pingSem.Release(1)]. *)
Definition pingSem_TryAcquire (n : Z) : M bool :=
  sem <- read pingSem ;;
  let (acquired, sem') := semaphore.TryAcquire n sem in
  write (set_pingSem sem') ;;
  ret acquired.

Definition pingSem_Release (n : Z) : M unit :=
  sem <- read pingSem ;;
  write (set_pingSem (semaphore.Release n sem)).

(** The values [ping] gives its locals [active] and [synced] from the
    result of [NodeSyncing]. *)
Definition probe_outcome (response : Result SyncState) : bool * bool :=
  match response with
  | Fail _ => (false, false)
  | Ok data => (true, synced_of data)
  end.

(** The gated probe of [ping] (from [TryAcquire] to [Release]): the
    values of the locals [active] and [synced] after it. *)
Definition ping_probe (ctx : Context) (wasActive wasSynced : bool)
  : M (bool * bool) :=
  acquired <- pingSem_TryAcquire 1 ;;
  if negb acquired
  then ret (wasActive, wasSynced)
  else
    response <- NodeSyncing ctx ;;
    pingSem_Release 1 ;;
    ret (probe_outcome response).

(** The [switch] of [ping]: the side effect of the transition, and the
    value of the local [active] after it. *)
Definition ping_transition (ctx : Context)
    (wasActive wasSynced active synced : bool) : M bool :=
  if negb wasActive && active then
    err <- checkDVT ctx ;;
    match err with
    | Some _ => ret false
    | None => ret active
    end
  else if wasActive && negb active then
    clearStaticValues ;; ret active
  else if negb wasSynced && synced then ret active
  else if wasSynced && negb synced then ret active
  else ret active.

(** The end of [ping]: store the state and publish it. *)
Definition ping_commit (active synced : bool) : M unit :=
  write (set_connectionActive active) ;;
  write (set_connectionSynced synced) ;;
  monitorActive active ;;
  monitorSynced synced.

(** [func (s *Service) ping(_ context.Context)]. *)
Definition ping (_ : Context) : M unit :=
  let ctx := context_Background in
  wasActive <- read connectionActive ;;
  wasSynced <- read connectionSynced ;;
  probed <- ping_probe ctx wasActive wasSynced ;;
  let (active, synced) := (probed : bool * bool) in
  active <- ping_transition ctx wasActive wasSynced active synced ;;
  ping_commit active synced.

(** [func (s *Service) IsActive(_ context.Context) bool]. *)
Definition IsActive (_ : Context) : M bool := read connectionActive.

(** [func (s *Service) IsSynced(_ context.Context) bool]. *)
Definition IsSynced (_ : Context) : M bool := read connectionSynced.

(** [func (s *Service) assertIsActive(ctx) error]. *)
Definition assertIsActive (ctx : Context) : M (option error) :=
  active <- IsActive ctx ;;
  if (active : bool) then ret None
  else
    ping ctx ;;
    active <- IsActive ctx ;;
    if negb active then ret (Some ErrNotActive) else ret None.

(** [func (s *Service) assertIsSynced(ctx) error]. *)
Definition assertIsSynced (ctx : Context) : M (option error) :=
  synced <- IsSynced ctx ;;
  if (synced : bool) then ret None
  else
    ping ctx ;;
    active <- IsActive ctx ;;
    if negb active then ret (Some ErrNotActive)
    else
      synced <- IsSynced ctx ;;
      if negb synced then ret (Some ErrNotSynced) else ret None.

(** ** Construction *)

(** The parsed options of [New] (the struct is declared in
    [http/parameters.go]); the fields are those [New] reads, the log
    level apart. *)
Record parameters : Type := {
  p_monitor : option Monitor;
  p_address : string;
  p_timeout : Z;
  p_indexChunkSize : Z;
  p_pubKeyChunkSize : Z;
  p_extraHeaders : list (string * string);
  p_enforceJSON : bool;
  p_allowDelayedStart : bool
}.

(** Functions of other files and packages that [New] calls; [Param] is
    Go's interface type [Parameter]. *)
Variable Param : Type.
Variable parseAndCheckParameters : list Param -> Result parameters.
Variable registerMetrics : Context -> Monitor -> option error.
Variable url_Parse : string -> Result URL.

(** The address [New] hands to [url.Parse]. *)
Definition normalize_address (address : string) : string :=
  let address :=
    if negb (strings_HasPrefix address "http")
    then String.append "http://" address
    else address in
  if negb (strings_HasSuffix address "/")
  then String.append address "/"
  else address.

(** The struct literal [&Service{...}] of [New]; the fields it does not
    name have their zero value. *)
Definition new_Service (params : parameters) (base : URL) : Service :=
  {| base := base;
     address := p_address params;
     timeout := p_timeout params;
     genesis := None;
     spec := None;
     depositContract := None;
     forkSchedule := None;
     nodeVersion := "";
     userIndexChunkSize := p_indexChunkSize params;
     userPubKeyChunkSize := p_pubKeyChunkSize params;
     extraHeaders := p_extraHeaders params;
     pingSem := semaphore.NewWeighted 1;
     connectionActive := false;
     connectionSynced := false;
     enforceJSON := p_enforceJSON params;
     connectedToDVTMiddleware := false |}.

(** [func New(ctx, params ...Parameter) (client.Service, error)]. *)
Definition New (ctx : Context) (params : list Param) (w : World)
  : (option Service * option error) * World :=
  match parseAndCheckParameters params with
  | Fail err =>
      ((None, Some (errors_Join (errors_New "problem with parameters") err)), w)
  | Ok parameters =>
      match
        match p_monitor parameters with
        | Some monitor => registerMetrics ctx monitor
        | None => None
        end
      with
      | Some err =>
          ((None,
            Some (errors_Join (errors_New "failed to register metrics") err)),
           w)
      | None =>
          match url_Parse (normalize_address (p_address parameters)) with
          | Fail err =>
              ((None, Some (errors_Join (errors_New "invalid URL") err)), w)
          | Ok base =>
              let s := new_Service parameters base in
              let (_, st) := runState (ping ctx) (s, w) in
              let (active, st) := runState (IsActive ctx) st in
              if negb active && negb (p_allowDelayedStart parameters)
              then ((None, Some ErrNotActive), snd st)
              else
                let w :=
                  emit (EvGo close_on_done)
                    (emit (EvGo periodicPing_loop)
                       (emit (EvGo periodicClearStaticValues_loop) (snd st)))
                in
                ((Some (fst st), None), w)
          end
      end
  end.

(** ** A service in use *)

(** The calls made on a service during its lifetime: by its users, by
    the two periodic loops (a tick of [periodicPing] is a [ping], a tick
    of [periodicClearStaticValues] a [clearStaticValues]) and by the
    methods themselves. *)
Inductive Call : Type :=
| CallPing (ctx : Context)
| CallClearStaticValues
| CallCheckDVT (ctx : Context)
| CallNodeVersion (ctx : Context)
| CallNodeSyncing (ctx : Context)
| CallIsActive (ctx : Context)
| CallIsSynced (ctx : Context)
| CallAssertIsActive (ctx : Context)
| CallAssertIsSynced (ctx : Context)
| CallName
| CallAddress.

Definition call (c : Call) : M unit :=
  match c with
  | CallPing ctx => ping ctx
  | CallClearStaticValues => clearStaticValues
  | CallCheckDVT ctx => checkDVT ctx ;; ret tt
  | CallNodeVersion ctx => NodeVersion ctx ;; ret tt
  | CallNodeSyncing ctx => NodeSyncing ctx ;; ret tt
  | CallIsActive ctx => IsActive ctx ;; ret tt
  | CallIsSynced ctx => IsSynced ctx ;; ret tt
  | CallAssertIsActive ctx => assertIsActive ctx ;; ret tt
  | CallAssertIsSynced ctx => assertIsSynced ctx ;; ret tt
  | CallName => Name ;; ret tt
  | CallAddress => Address ;; ret tt
  end.

Fixpoint calls (cs : list Call) : M unit :=
  match cs with
  | [] => ret tt
  | c :: rest => call c ;; calls rest
  end.

End Service.

Arguments Service : clear implicits.
Arguments parameters : clear implicits.

(** ** Running a method *)

Section Run.

Context {Genesis DepositContract Fork SpecValue URL : Type}.

Local Abbreviation Svc := (Service Genesis DepositContract Fork SpecValue URL).
Local Abbreviation St := (Svc * World)%type.

(** The service and the world a method leaves behind. *)
Definition service_after {A : Type} (m : state St A) (st : St) : Svc :=
  fst (execState m st).

Definition world_after {A : Type} (m : state St A) (st : St) : World :=
  snd (execState m st).

(** The probe gate has a permit left for [TryAcquire(1)]. *)
Definition permit_free (s : Svc) : bool :=
  fst (semaphore.TryAcquire 1 (pingSem s)).

(** The world once the sync-status request has been answered. *)
Definition after_syncing (w : World) : World :=
  snd (take_syncing (emit EvNodeSyncing w)).

(** How many sync-status requests a method sends. *)
Definition probes {A : Type} (m : state St A) (st : St) : nat :=
  (occurrences EvNodeSyncing (trace (world_after m st))
   - occurrences EvNodeSyncing (trace (snd st)))%nat.

(** The error [assertIsSynced] reports for a stored state. *)
Definition synced_guard (s : Svc) : option error :=
  if negb (connectionActive s) then Some ErrNotActive
  else if negb (connectionSynced s) then Some ErrNotSynced
  else None.

(** What stays as it is whatever is called on a service: the fields
    nothing assigns to, and a middleware flag that is set. *)
Definition kept (s s' : Svc) : Prop :=
  base s' = base s /\
  address s' = address s /\
  timeout s' = timeout s /\
  userIndexChunkSize s' = userIndexChunkSize s /\
  userPubKeyChunkSize s' = userPubKeyChunkSize s /\
  extraHeaders s' = extraHeaders s /\
  enforceJSON s' = enforceJSON s /\
  semaphore.size (pingSem s') = semaphore.size (pingSem s) /\
  (connectedToDVTMiddleware s = true -> connectedToDVTMiddleware s' = true).

End Run.

(** ** Concrete services, nodes and options *)

(** Options for a node at [localhost:5052], given without scheme. *)
Definition local_params (allowDelayedStart : bool) : parameters unit :=
  {| p_monitor := None;
     p_address := "localhost:5052";
     p_timeout := 2000000000;
     p_indexChunkSize := -1;
     p_pubKeyChunkSize := -1;
     p_extraHeaders := [];
     p_enforceJSON := false;
     p_allowDelayedStart := allowDelayedStart |}.

(** Stand-ins for the functions [New] calls: the options are given as
    one parsed record, every address parses to itself. *)
Definition parse_first (params : list (parameters unit))
  : Result (parameters unit) :=
  match params with
  | p :: _ => Ok p
  | [] => Fail (errors_New "no address specified")
  end.

Definition no_metrics (_ : Context) (_ : unit) : option error := None.

Definition parse_url (address : string) : Result string := Ok address.

(** A service as [New] builds it: inactive, nothing cached, gate free. *)
Definition fresh_service : Service unit unit unit unit string :=
  new_Service (local_params false) "http://localhost:5052/"%string.

(** The service [New] builds when delayed start is allowed. *)
Definition delayed_service : Service unit unit unit unit string :=
  new_Service (local_params true) "http://localhost:5052/"%string.

(** The same service while another probe holds the permit. *)
Definition gated_service : Service unit unit unit unit string :=
  set_pingSem {| semaphore.size := 1; semaphore.cur := 1 |} fresh_service.

(** A service that is active and synced, with every fact cached. *)
Definition running_service : Service unit unit unit unit string :=
  set_static (Some tt) (Some []) (Some tt) (Some [tt]) "Lighthouse/v5.1.3"
    (set_conn (semaphore.NewWeighted 1) true true true fresh_service).

Definition sync_done : SyncState :=
  {| IsSyncing := false; HeadSlot := 100; SyncDistance := 0 |}.

Definition sync_bootstrapping : SyncState :=
  {| IsSyncing := true; HeadSlot := 0; SyncDistance := 1 |}.

Definition sync_behind : SyncState :=
  {| IsSyncing := true; HeadSlot := 100; SyncDistance := 1 |}.

(** A node that does not answer. *)
Definition node_down : World :=
  {| syncingReplies := []; versionReplies := []; trace := [] |}.

(** A synced node behind a Charon middleware. *)
Definition node_up : World :=
  {| syncingReplies := [Ok sync_done];
     versionReplies := [Ok "Charon/v1.0.0"%string];
     trace := [] |}.

(** A synced node whose version endpoint fails. *)
Definition node_without_version : World :=
  {| syncingReplies := [Ok sync_done];
     versionReplies := [Fail unreachable];
     trace := [] |}.

(** A context whose owner has given up. *)
Definition cancelled_ctx : Context :=
  context_WithCancel context_Background true.

(** ** The periodic loops *)

(** What the [select] of a periodic loop receives: the ticker fired, or
    [ctx.Done()] was closed. *)
Inductive Select : Type :=
| Tick
| Done.

Section Loops.

Context {Genesis DepositContract Fork SpecValue URL : Type}.

Local Abbreviation Svc := (Service Genesis DepositContract Fork SpecValue URL).

(** The goroutine of [periodicPing], run on the receives of its
    [select]: a [ping] for every tick, return on done; when the receives
    run out the goroutine is waiting in its [select]. *)
Fixpoint periodicPing_goroutine (ctx : Context) (events : list Select)
  : state (Svc * World) unit :=
  match events with
  | [] => ret tt
  | Tick :: rest => ping ctx ;; periodicPing_goroutine ctx rest
  | Done :: _ => ret tt
  end.

(** The goroutine of [periodicClearStaticValues], in the same way. *)
Fixpoint periodicClearStaticValues_goroutine (ctx : Context)
    (events : list Select) : state (Svc * World) unit :=
  match events with
  | [] => ret tt
  | Tick :: rest =>
      clearStaticValues ;; periodicClearStaticValues_goroutine ctx rest
  | Done :: _ => ret tt
  end.

(** The ticks a loop serves: those before the first done. *)
Fixpoint ticks_served (events : list Select) : nat :=
  match events with
  | [] => O
  | Tick :: rest => S (ticks_served rest)
  | Done :: _ => O
  end.

(** The calls that run [ping]. *)
Definition pings (c : Call) : bool :=
  match c with
  | CallPing _ | CallAssertIsActive _ | CallAssertIsSynced _ => true
  | _ => false
  end.

(** How many version requests a method sends. *)
Definition version_fetches {A : Type} (m : state (Svc * World) A)
    (st : Svc * World) : nat :=
  (occurrences EvNodeVersion (trace (world_after m st))
   - occurrences EvNodeVersion (trace (snd st)))%nat.

(** The error [assertIsActive] reports for a stored state. *)
Definition active_guard (s : Svc) : option error :=
  if negb (connectionActive s) then Some ErrNotActive else None.

(** The goroutines [New] starts, in the order it starts them. *)
Definition started (w : World) : World :=
  emit (EvGo close_on_done)
    (emit (EvGo periodicPing_loop)
       (emit (EvGo periodicClearStaticValues_loop) w)).

End Loops.

(** ** [electra]: the YAML form of a deposit receipt *)

Module electra.

(** [DepositReceipt], with the fields [MarshalYAML] reads: byte strings
    and [uint64] counters. *)
Record DepositReceipt : Type := {
  Pubkey : list Byte.byte;
  WithdrawalCredentials : list Byte.byte;
  Amount : Z;
  Signature : list Byte.byte;
  Index : Z
}.

(** [type depositReceiptYAML struct]. *)
Record depositReceiptYAML : Type := {
  yaml_Pubkey : string;
  yaml_WithdrawalCredentials : string;
  yaml_Amount : Z;
  yaml_Signature : string;
  yaml_Index : Z
}.

Definition double_quote : Byte.byte := Byte.x22.
Definition single_quote : Byte.byte := Byte.x27.

(** [bytes.ReplaceAll(s, old, new)] for patterns of one byte each, as
    [MarshalYAML] calls it. *)
Definition bytes_ReplaceAll_byte (s : list Byte.byte) (old new : Byte.byte)
  : list Byte.byte :=
  List.map (fun b => if Byte.eqb b old then new else b) s.

Section Marshal.

(** [fmt.Sprintf("%#x", b)] and [yaml.MarshalWithOptions(v,
    yaml.Flow(true))], of other packages. *)
Variable fmt_Sprintf_sharp_x : list Byte.byte -> string.
Variable yaml_MarshalWithOptions :
  depositReceiptYAML -> Result (list Byte.byte).

(** The struct literal [MarshalYAML] hands to the encoder. *)
Definition to_depositReceiptYAML (d : DepositReceipt) : depositReceiptYAML :=
  {| yaml_Pubkey := fmt_Sprintf_sharp_x (Pubkey d);
     yaml_WithdrawalCredentials := fmt_Sprintf_sharp_x (WithdrawalCredentials d);
     yaml_Amount := Amount d;
     yaml_Signature := fmt_Sprintf_sharp_x (Signature d);
     yaml_Index := Index d |}.

(** [func (d *DepositReceipt) MarshalYAML() ([]byte, error)]. *)
Definition MarshalYAML (d : DepositReceipt)
  : option (list Byte.byte) * option error :=
  match yaml_MarshalWithOptions (to_depositReceiptYAML d) with
  | Fail err => (None, Some err)
  | Ok yamlBytes =>
      (Some (bytes_ReplaceAll_byte yamlBytes double_quote single_quote), None)
  end.

End Marshal.

End electra.

(** A service that is inactive although a node version is cached. *)
Definition stale_service : Service unit unit unit unit string :=
  set_nodeVersion "Lighthouse/v5.1.3" fresh_service.

(** A node that is still syncing. *)
Definition node_syncing : World :=
  {| syncingReplies := [Ok sync_behind; Ok sync_behind];
     versionReplies := [Ok "Lighthouse/v5.1.3"%string];
     trace := [] |}.

(** A node that answers three probes, then goes away. *)
Definition node_three_probes : World :=
  {| syncingReplies := [Ok sync_done; Ok sync_behind; Ok sync_done];
     versionReplies := [Ok "teku/v24.1.0"%string];
     trace := [] |}.

(** Stand-ins for failing collaborators of [New]. *)
Definition parse_nothing (_ : list (parameters unit))
  : Result (parameters unit) :=
  Fail (errors_New "no address specified").

Definition parse_no_url (_ : string) : Result string :=
  Fail (errors_New "missing protocol scheme").

(** A YAML encoder that quotes its one value, and a hex printer that
    prints nothing. *)
Definition quoting_encoder (_ : electra.depositReceiptYAML)
  : Result (list Byte.byte) :=
  Ok [Byte.x7b; Byte.x22; Byte.x61; Byte.x22; Byte.x7d].

Definition no_hex (_ : list Byte.byte) : string := ""%string.

Definition empty_receipt : electra.DepositReceipt :=
  {| electra.Pubkey := []; electra.WithdrawalCredentials := [];
     electra.Amount := 0; electra.Signature := []; electra.Index := 0 |}.

(** ** [ping] between its critical sections *)

(** Several goroutines run [ping] at once: the periodic loop and every
    caller of a guard.  Each of them holds its own locals and shares the
    service; what one does is atomic only within a critical section or a
    single call.  The steps below cut [ping] at those places. *)
Module goroutine.

(** Where a goroutine stands in [ping]. *)
Inductive Point : Type :=
| AtSnapshot
| AtTryAcquire
| AtNodeSyncing
| AtRelease
| AtSwitch
| AtStore
| AtMonitor
| AtReturn.

(** The locals of one run of [ping]. *)
Record Frame : Type := {
  point : Point;
  wasActive : bool;
  wasSynced : bool;
  active : bool;
  synced : bool
}.

Definition at_point (p : Point) (f : Frame) : Frame :=
  {| point := p; wasActive := wasActive f; wasSynced := wasSynced f;
     active := active f; synced := synced f |}.

Definition with_result (p : Point) (a sy : bool) (f : Frame) : Frame :=
  {| point := p; wasActive := wasActive f; wasSynced := wasSynced f;
     active := a; synced := sy |}.

(** A goroutine entering [ping]: [var active bool], [var synced bool]. *)
Definition enter : Frame :=
  {| point := AtSnapshot; wasActive := false; wasSynced := false;
     active := false; synced := false |}.

(** Whose turn it is, of two goroutines. *)
Inductive Turn : Type :=
| First
| Second.

Section Steps.

Context {Genesis DepositContract Fork SpecValue URL : Type}.

Local Abbreviation Svc := (Service Genesis DepositContract Fork SpecValue URL).

(** One step of [ping]: the locked read of the stored pair, the
    [TryAcquire], the sync-status call with the assignments that follow
    it, the [Release], the [switch], the locked store, the two metric
    updates. *)
Definition ping_step (f : Frame) : state (Svc * World) Frame :=
  match point f with
  | AtSnapshot =>
      wasActive <- read connectionActive ;;
      wasSynced <- read connectionSynced ;;
      ret {| point := AtTryAcquire;
             wasActive := wasActive; wasSynced := wasSynced;
             active := active f; synced := synced f |}
  | AtTryAcquire =>
      acquired <- pingSem_TryAcquire 1 ;;
      if negb acquired
      then ret (with_result AtSwitch (wasActive f) (wasSynced f) f)
      else ret (at_point AtNodeSyncing f)
  | AtNodeSyncing =>
      response <- NodeSyncing context_Background ;;
      ret (with_result AtRelease
             (fst (probe_outcome response)) (snd (probe_outcome response)) f)
  | AtRelease =>
      pingSem_Release 1 ;;
      ret (at_point AtSwitch f)
  | AtSwitch =>
      active <- ping_transition context_Background
                  (wasActive f) (wasSynced f) (active f) (synced f) ;;
      ret (with_result AtStore active (synced f) f)
  | AtStore =>
      write (set_connectionActive (active f)) ;;
      write (set_connectionSynced (synced f)) ;;
      ret (at_point AtMonitor f)
  | AtMonitor =>
      monitorActive (active f) ;;
      monitorSynced (synced f) ;;
      ret (at_point AtReturn f)
  | AtReturn => ret f
  end.

(** Two goroutines in [ping], run in the order of a schedule. *)
Fixpoint interleave (schedule : list Turn) (a b : Frame)
  : state (Svc * World) (Frame * Frame) :=
  match schedule with
  | [] => ret (a, b)
  | First :: rest => a' <- ping_step a ;; interleave rest a' b
  | Second :: rest => b' <- ping_step b ;; interleave rest a b'
  end.

End Steps.

(** One goroutine running [ping] from entry to return. *)
Definition alone : list Turn := List.repeat First 7.

(** The first goroutine takes the permit; the second reads the stored
    pair and finds the gate busy; the first finishes its probe, its
    switch and its store. *)
Definition holder_finishes : list Turn :=
  [First; First; Second; Second; First; First; First; First; First].

(** Then the second goroutine goes on to its switch, store and metrics. *)
Definition waiter_finishes : list Turn :=
  holder_finishes ++ [Second; Second; Second].

End goroutine.

(** ** How the methods run *)

Section Facts.

Context {Genesis DepositContract Fork SpecValue URL : Type}.

Local Abbreviation Svc := (Service Genesis DepositContract Fork SpecValue URL).
Local Abbreviation St := (Svc * World)%type.

Implicit Types (s : Svc) (w : World) (st : St) (ctx : Context).

Lemma run_bind (A B : Type) (m : state St A) (k : A -> state St B) st :
  runState (x <- m ;; k x) st = runState (k (evalState m st)) (execState m st).
Proof.
  unfold evalState, execState. cbn. destruct (runState m st). reflexivity.
Qed.

Lemma run_read (A : Type) (f : Svc -> A) s w :
  runState (read f) (s, w) = (f s, (s, w)).
Proof. reflexivity. Qed.

Lemma set_conn_same s :
  set_conn (pingSem s) (connectionActive s) (connectionSynced s)
    (connectedToDVTMiddleware s) s = s.
Proof. destruct s; reflexivity. Qed.

(** *** The probe gate *)

Lemma release_acquired (sem : semaphore.Weighted) :
  fst (semaphore.TryAcquire 1 sem) = true ->
  semaphore.Release 1 (snd (semaphore.TryAcquire 1 sem)) = sem.
Proof.
  unfold semaphore.TryAcquire, semaphore.Release.
  destruct sem as [size cur]; cbn [semaphore.size semaphore.cur].
  destruct (1 <=? size - cur); cbn [fst snd semaphore.size semaphore.cur].
  - intros _. f_equal. lia.
  - discriminate.
Qed.

Lemma not_acquired_same (sem : semaphore.Weighted) :
  fst (semaphore.TryAcquire 1 sem) = false ->
  snd (semaphore.TryAcquire 1 sem) = sem.
Proof.
  unfold semaphore.TryAcquire.
  destruct (1 <=? semaphore.size sem - semaphore.cur sem); [discriminate|reflexivity].
Qed.

(** Under the background context the sync-status call goes out and
    returns the node's next reply. *)
Lemma NodeSyncing_background s w :
  runState (NodeSyncing context_Background) (s, w)
  = (fst (take_syncing w), (s, after_syncing w)).
Proof.
  unfold NodeSyncing, after_syncing, take_syncing. cbn.
  destruct (syncingReplies w); reflexivity.
Qed.

(** The probe when the gate is busy: nothing happens. *)
Lemma ping_probe_busy ctx wasActive wasSynced s w :
  permit_free s = false ->
  runState (ping_probe ctx wasActive wasSynced) (s, w)
  = ((wasActive, wasSynced), (s, w)).
Proof.
  unfold permit_free. intros Hbusy.
  pose proof (not_acquired_same _ Hbusy) as Hsem.
  unfold ping_probe, pingSem_TryAcquire. cbn.
  destruct (semaphore.TryAcquire 1 (pingSem s)) as [acquired sem'].
  cbn in *. subst. cbn.
  unfold set_pingSem. rewrite set_conn_same. reflexivity.
Qed.

(** The probe when the permit is acquired: one sync-status request. *)
Lemma ping_probe_free wasActive wasSynced s w :
  permit_free s = true ->
  runState (ping_probe context_Background wasActive wasSynced) (s, w)
  = (probe_outcome (fst (take_syncing w)), (s, after_syncing w)).
Proof.
  unfold permit_free. intros Hfree.
  pose proof (release_acquired _ Hfree) as Hsem.
  unfold ping_probe, pingSem_TryAcquire, pingSem_Release, after_syncing.
  cbn.
  destruct (semaphore.TryAcquire 1 (pingSem s)) as [acquired sem'].
  cbn in *. subst. cbn.
  unfold take_syncing. cbn.
  destruct (syncingReplies w) as [|r rest]; cbn;
    unfold set_pingSem; cbn; rewrite Hsem;
    destruct s; reflexivity.
Qed.

(** *** [ping], block by block *)

Lemma run_ping_commit active synced st :
  runState (ping_commit active synced) st
  = (tt, (set_conn (pingSem (fst st)) active synced
            (connectedToDVTMiddleware (fst st)) (fst st),
          emit (EvMonitorSynced synced) (emit (EvMonitorActive active) (snd st)))).
Proof. reflexivity. Qed.

Lemma run_ping ctx s w :
  runState (ping ctx) (s, w)
  = let wasActive := connectionActive s in
    let wasSynced := connectionSynced s in
    let probed := runState (ping_probe context_Background wasActive wasSynced) (s, w) in
    let moved :=
      runState (ping_transition context_Background wasActive wasSynced
                  (fst (fst probed)) (snd (fst probed))) (snd probed) in
    runState (ping_commit (fst moved) (snd (fst probed))) (snd moved).
Proof.
  unfold ping. rewrite run_bind. unfold evalState, execState.
  rewrite run_read. cbn [fst snd].
  rewrite run_bind. unfold evalState, execState.
  rewrite run_read. cbn [fst snd].
  rewrite run_bind. unfold evalState, execState.
  cbv zeta.
  destruct (runState (ping_probe context_Background (connectionActive s)
                        (connectionSynced s)) (s, w)) as [[active synced] st1].
  cbn [fst snd].
  rewrite run_bind. reflexivity.
Qed.

(** Case analysis on the innermost scrutinee first, so that a method is
    run in the order of its statements. *)
Ltac split_matches :=
  repeat (cbn;
          match goal with
          | |- context [match ?x with _ => _ end] =>
              lazymatch x with
              | context [match _ with _ => _ end] => fail
              | _ => destruct x eqn:?
              end
          end);
  cbn.

Ltac kept_done :=
  unfold kept; cbn; repeat split; auto.

Lemma kept_refl s : kept s s.
Proof. unfold kept; tauto. Qed.

Lemma kept_trans s1 s2 s3 : kept s1 s2 -> kept s2 s3 -> kept s1 s3.
Proof.
  unfold kept. intros H12 H23.
  repeat match goal with H : _ /\ _ |- _ => destruct H end.
  repeat split; try congruence; auto.
Qed.

Lemma NodeVersion_kept ctx st : kept (fst st) (service_after (NodeVersion ctx) st).
Proof.
  destruct st as [s w]. unfold service_after, execState, NodeVersion.
  split_matches; kept_done.
Qed.

Lemma checkDVT_kept ctx st : kept (fst st) (service_after (checkDVT ctx) st).
Proof.
  destruct st as [s w]. unfold service_after, execState, checkDVT, NodeVersion.
  split_matches; kept_done.
Qed.

Lemma clearStaticValues_kept st :
  kept (fst st) (service_after clearStaticValues st).
Proof. destruct st as [s w]. kept_done. Qed.

Lemma ping_transition_kept ctx wasActive wasSynced active synced st :
  kept (fst st)
    (service_after (ping_transition ctx wasActive wasSynced active synced) st).
Proof.
  destruct st as [s w].
  unfold service_after, execState, ping_transition, checkDVT, NodeVersion.
  split_matches; kept_done.
Qed.

Lemma ping_commit_kept active synced st :
  kept (fst st) (service_after (ping_commit active synced) st).
Proof. destruct st as [s w]. kept_done. Qed.

Lemma ping_probe_same ctx wasActive wasSynced s w :
  fst (execState (ping_probe ctx wasActive wasSynced) (s, w)) = s
  \/ ctx_Err ctx <> None.
Proof.
  destruct (ctx_Err ctx) eqn:Hctx; [right; discriminate|left].
  destruct (permit_free s) eqn:Hgate.
  - unfold permit_free in Hgate.
    pose proof (release_acquired _ Hgate) as Hsem.
    unfold execState, ping_probe, pingSem_TryAcquire, pingSem_Release,
      NodeSyncing.
    rewrite Hctx. cbn.
    destruct (semaphore.TryAcquire 1 (pingSem s)) as [acquired sem'].
    cbn in *. subst. cbn.
    destruct (take_syncing (emit EvNodeSyncing w)); cbn.
    unfold set_pingSem; cbn. rewrite Hsem. destruct s; reflexivity.
  - unfold execState. rewrite ping_probe_busy by assumption. reflexivity.
Qed.

Lemma ping_kept ctx st : kept (fst st) (service_after (ping ctx) st).
Proof.
  destruct st as [s w]. unfold service_after, execState.
  rewrite run_ping. cbv zeta.
  set (probed := runState (ping_probe _ _ _) _).
  set (moved := runState (ping_transition _ _ _ _ _) _).
  assert (Hprobe : fst (snd probed) = s).
  { destruct (ping_probe_same context_Background (connectionActive s)
                (connectionSynced s) s w) as [H|H]; [exact H|].
    exfalso. apply H. reflexivity. }
  apply kept_trans with (fst (snd moved)).
  - pose proof (ping_transition_kept context_Background (connectionActive s)
                  (connectionSynced s) (fst (fst probed)) (snd (fst probed))
                  (snd probed)) as Hmove.
    rewrite Hprobe in Hmove. exact Hmove.
  - apply ping_commit_kept.
Qed.

Lemma run_assertIsActive ctx s w :
  runState (assertIsActive ctx) (s, w)
  = if connectionActive s then (None, (s, w))
    else
      let st' := execState (ping ctx) (s, w) in
      (if negb (connectionActive (fst st')) then Some ErrNotActive else None,
       st').
Proof.
  unfold assertIsActive, IsActive. rewrite run_bind.
  unfold evalState, execState. rewrite run_read. cbn [fst snd].
  destruct (connectionActive s); [reflexivity|].
  rewrite run_bind. unfold evalState, execState. cbv zeta.
  destruct (runState (ping ctx) (s, w)) as [[] [s' w']]. cbn [fst snd].
  rewrite run_bind. unfold evalState, execState.
  rewrite run_read. cbn [fst snd].
  destruct (connectionActive s'); reflexivity.
Qed.

Lemma run_assertIsSynced ctx s w :
  runState (assertIsSynced ctx) (s, w)
  = if connectionSynced s then (None, (s, w))
    else
      let st' := execState (ping ctx) (s, w) in
      (synced_guard (fst st'), st').
Proof.
  unfold assertIsSynced, IsSynced, IsActive, synced_guard. rewrite run_bind.
  unfold evalState, execState. rewrite run_read. cbn [fst snd].
  destruct (connectionSynced s); [reflexivity|].
  rewrite run_bind. unfold evalState, execState. cbv zeta.
  destruct (runState (ping ctx) (s, w)) as [[] [s' w']]. cbn [fst snd].
  rewrite run_bind. unfold evalState, execState.
  rewrite run_read. cbn [fst snd].
  destruct (connectionActive s'); [|reflexivity]. cbn [negb].
  rewrite run_bind. unfold evalState, execState.
  rewrite run_read. cbn [fst snd].
  destruct (connectionSynced s'); reflexivity.
Qed.

Lemma call_kept c st : kept (fst st) (service_after (call c) st).
Proof.
  destruct c; unfold service_after, execState, call; rewrite run_bind || idtac;
    unfold evalState, execState; cbn [runState ret Monad_state snd fst].
  - apply ping_kept.
  - apply clearStaticValues_kept.
  - apply checkDVT_kept.
  - apply NodeVersion_kept.
  - destruct st as [s w]. unfold NodeSyncing. split_matches; kept_done.
  - apply kept_refl.
  - apply kept_refl.
  - destruct st as [s w]. rewrite run_assertIsActive.
    destruct (connectionActive s); [apply kept_refl|].
    apply (ping_kept ctx (s, w)).
  - destruct st as [s w]. rewrite run_assertIsSynced.
    destruct (connectionSynced s); [apply kept_refl|].
    apply (ping_kept ctx (s, w)).
  - apply kept_refl.
  - apply kept_refl.
Qed.

Lemma calls_kept cs : forall st, kept (fst st) (service_after (calls cs) st).
Proof.
  induction cs as [|c rest IH]; intros st.
  - apply kept_refl.
  - unfold service_after, execState. cbn [calls]. rewrite run_bind.
    unfold evalState, execState.
    apply kept_trans with (fst (snd (runState (call c) st))).
    + apply call_kept.
    + apply IH.
Qed.

(** *** The node-version accessor and the middleware check *)

Lemma run_NodeVersion ctx s w :
  runState (NodeVersion ctx) (s, w)
  = if negb (String.eqb (nodeVersion s) "") then (Ok (nodeVersion s), (s, w))
    else
      match ctx_Err ctx with
      | Some err => (Fail err, (s, w))
      | None =>
          match fst (take_version w) with
          | Ok version =>
              (Ok version,
               (set_nodeVersion version s,
                snd (take_version (emit EvNodeVersion w))))
          | Fail err =>
              (Fail err, (s, snd (take_version (emit EvNodeVersion w))))
          end
      end.
Proof.
  unfold NodeVersion, take_version. split_matches; try reflexivity; congruence.
Qed.

(** The version fetch fails on an empty cache and a failing reply. *)
Lemma checkDVT_fetch_fails s w err :
  nodeVersion s = ""%string ->
  fst (take_version w) = Fail err ->
  runState (checkDVT context_Background) (s, w)
  = (Some (errors_Join
             (errors_New "failed to obtain node version for DVT check") err),
     (s, snd (take_version (emit EvNodeVersion w)))).
Proof.
  intros Hcache Hreply. unfold checkDVT. rewrite run_bind.
  unfold evalState, execState. rewrite run_NodeVersion.
  rewrite Hcache, Hreply. reflexivity.
Qed.

(** *** Counting requests *)

Lemma occurrences_app e t1 t2 :
  occurrences e (t1 ++ t2) = (occurrences e t1 + occurrences e t2)%nat.
Proof.
  unfold occurrences. rewrite filter_app, length_app. reflexivity.
Qed.

Lemma occurrences_emit e e' w :
  occurrences e (trace (emit e' w))
  = (occurrences e (trace w) + if Event_eqb e e' then 1 else 0)%nat.
Proof.
  unfold emit. cbn [trace]. rewrite occurrences_app.
  unfold occurrences. cbn. destruct (Event_eqb e e'); reflexivity.
Qed.

Lemma trace_after_syncing w : trace (after_syncing w) = trace w ++ [EvNodeSyncing].
Proof.
  unfold after_syncing, take_syncing. cbn.
  destruct (syncingReplies w); reflexivity.
Qed.

Lemma checkDVT_sends_no_probe ctx st :
  occurrences EvNodeSyncing (trace (world_after (checkDVT ctx) st))
  = occurrences EvNodeSyncing (trace (snd st)).
Proof.
  destruct st as [s w]. unfold world_after, execState, checkDVT.
  rewrite run_bind. unfold evalState, execState. rewrite run_NodeVersion.
  unfold take_version.
  split_matches; try reflexivity;
    fold (occurrences EvNodeSyncing (trace w ++ [EvNodeVersion]));
    rewrite occurrences_app; cbn; lia.
Qed.

(** *** The five ways through [ping] *)

Lemma ping_transition_unchanged ctx active synced st :
  runState (ping_transition ctx active synced active synced) st = (active, st).
Proof. destruct active, synced; reflexivity. Qed.

Lemma run_ping_busy ctx s w :
  permit_free s = false ->
  runState (ping ctx) (s, w)
  = (tt, (s, emit (EvMonitorSynced (connectionSynced s))
               (emit (EvMonitorActive (connectionActive s)) w))).
Proof.
  intros Hgate. rewrite run_ping. cbv zeta.
  rewrite ping_probe_busy by assumption. cbn [fst snd].
  rewrite run_ping_commit, ping_transition_unchanged. cbn [fst snd].
  rewrite set_conn_same. reflexivity.
Qed.

Lemma run_ping_still_down ctx s w err :
  permit_free s = true ->
  connectionActive s = false ->
  fst (take_syncing w) = Fail err ->
  runState (ping ctx) (s, w)
  = (tt, (set_conn (pingSem s) false false (connectedToDVTMiddleware s) s,
          emit (EvMonitorSynced false)
            (emit (EvMonitorActive false) (after_syncing w)))).
Proof.
  intros Hgate Hwas Hreply. rewrite run_ping. cbv zeta.
  rewrite ping_probe_free by assumption. rewrite Hreply, Hwas.
  cbn [fst snd probe_outcome]. rewrite run_ping_commit.
  unfold ping_transition. destruct (connectionSynced s); reflexivity.
Qed.

Lemma run_ping_deactivation ctx s w err :
  permit_free s = true ->
  connectionActive s = true ->
  fst (take_syncing w) = Fail err ->
  runState (ping ctx) (s, w)
  = (tt, (set_conn (pingSem s) false false (connectedToDVTMiddleware s)
            (set_static None None None None "" s),
          emit (EvMonitorSynced false)
            (emit (EvMonitorActive false) (after_syncing w)))).
Proof.
  intros Hgate Hwas Hreply. rewrite run_ping. cbv zeta.
  rewrite ping_probe_free by assumption. rewrite Hreply, Hwas.
  cbn [fst snd probe_outcome]. rewrite run_ping_commit.
  reflexivity.
Qed.

Lemma run_ping_steady ctx s w data :
  permit_free s = true ->
  connectionActive s = true ->
  fst (take_syncing w) = Ok data ->
  runState (ping ctx) (s, w)
  = (tt, (set_conn (pingSem s) true (synced_of data)
            (connectedToDVTMiddleware s) s,
          emit (EvMonitorSynced (synced_of data))
            (emit (EvMonitorActive true) (after_syncing w)))).
Proof.
  intros Hgate Hwas Hreply. rewrite run_ping. cbv zeta.
  rewrite ping_probe_free by assumption. rewrite Hreply, Hwas.
  cbn [fst snd probe_outcome]. rewrite run_ping_commit.
  unfold ping_transition.
  destruct (connectionSynced s), (synced_of data); reflexivity.
Qed.

Lemma run_ping_activation ctx s w data :
  permit_free s = true ->
  connectionActive s = false ->
  fst (take_syncing w) = Ok data ->
  runState (ping ctx) (s, w)
  = let detected := runState (checkDVT context_Background) (s, after_syncing w) in
    runState
      (ping_commit
         (match fst detected with Some _ => false | None => true end)
         (synced_of data))
      (snd detected).
Proof.
  intros Hgate Hwas Hreply. rewrite run_ping. cbv zeta.
  rewrite ping_probe_free by assumption. rewrite Hreply, Hwas.
  cbn [fst snd probe_outcome]. unfold ping_transition. cbn [negb andb].
  rewrite run_bind. unfold evalState, execState.
  destruct (runState (checkDVT context_Background) (s, after_syncing w))
    as [[err|] st']; reflexivity.
Qed.

Lemma ping_sends_probe ctx s w :
  occurrences EvNodeSyncing (trace (world_after (ping ctx) (s, w)))
  = (occurrences EvNodeSyncing (trace w) + if permit_free s then 1 else 0)%nat.
Proof.
  unfold world_after, execState.
  destruct (permit_free s) eqn:Hgate.
  - destruct (fst (take_syncing w)) as [data|err] eqn:Hreply,
      (connectionActive s) eqn:Hwas.
    + rewrite (run_ping_steady ctx s w Hgate Hwas Hreply). cbn [fst snd].
      rewrite !occurrences_emit, trace_after_syncing, occurrences_app.
      cbn. lia.
    + rewrite (run_ping_activation ctx s w Hgate Hwas Hreply). cbv zeta.
      rewrite run_ping_commit. cbn [fst snd].
      rewrite !occurrences_emit.
      pose proof (checkDVT_sends_no_probe context_Background
                    (s, after_syncing w)) as Hdvt.
      unfold world_after, execState in Hdvt. rewrite Hdvt.
      cbn [snd]. rewrite trace_after_syncing, occurrences_app. cbn. lia.
    + rewrite (run_ping_deactivation ctx s w Hgate Hwas Hreply). cbn [fst snd].
      rewrite !occurrences_emit, trace_after_syncing, occurrences_app.
      cbn. lia.
    + rewrite (run_ping_still_down ctx s w Hgate Hwas Hreply). cbn [fst snd].
      rewrite !occurrences_emit, trace_after_syncing, occurrences_app.
      cbn. lia.
  - rewrite run_ping_busy by assumption. cbn [fst snd].
    rewrite !occurrences_emit. cbn. lia.
Qed.

End Facts.

(** ** The properties of the connection state machine *)

Section Properties.

Context {Genesis DepositContract Fork SpecValue URL Monitor : Type}.

Local Abbreviation Svc := (Service Genesis DepositContract Fork SpecValue URL).
Local Abbreviation St := (Svc * World)%type.

Implicit Types (s : Svc) (w : World) (st : St) (ctx : Context).

Lemma synced_of_rule (data : SyncState) :
  synced_of data = true <->
  IsSyncing data = false \/ (HeadSlot data = 0 /\ SyncDistance data <= 1).
Proof.
  unfold synced_of.
  rewrite orb_true_iff, andb_true_iff, negb_true_iff, Z.eqb_eq, Z.leb_le.
  reflexivity.
Qed.

Lemma trace_take_version w :
  trace (snd (take_version (emit EvNodeVersion w))) = trace w ++ [EvNodeVersion].
Proof.
  unfold take_version, emit. cbn [versionReplies].
  destruct (versionReplies w); reflexivity.
Qed.

Lemma fst_take_version_after_syncing w :
  fst (take_version (after_syncing w)) = fst (take_version w).
Proof.
  unfold after_syncing, take_version, take_syncing. cbn.
  destruct (syncingReplies w); cbn; destruct (versionReplies w); reflexivity.
Qed.

(** C1 (as amended).  A [ping] that acquires the permit sends the
    sync-status request.  If it fails, the stored state is
    (active = false, synced = false).  If it succeeds with [data], the
    probe sets its locals to active = true and synced =
    [!IsSyncing || (HeadSlot == 0 && SyncDistance <= 1)], and [ping]
    stores that pair, unless the service was inactive and the
    middleware detection then run fails: in that case the stored active
    is false.  The rule gives true for
    [{isSyncing: true, headSlot: 0, syncDistance: 1}] and false for
    [{isSyncing: true, headSlot: 100, syncDistance: 1}]. *)
Theorem ping_sync_outcome ctx s w :
  permit_free s = true ->
  let s' := service_after (ping ctx) (s, w) in
  let detection :=
    evalState (checkDVT context_Background) (s, after_syncing w) in
  (forall err, fst (take_syncing w) = Fail err ->
     connectionActive s' = false /\ connectionSynced s' = false) /\
  (forall data, fst (take_syncing w) = Ok data ->
     evalState
       (ping_probe context_Background (connectionActive s) (connectionSynced s))
       (s, w) = (true, synced_of data) /\
     (connectionActive s = true \/ detection = None ->
      connectionActive s' = true /\ connectionSynced s' = synced_of data) /\
     (connectionActive s = false -> detection <> None ->
      connectionActive s' = false)) /\
  (forall data,
     synced_of data = true <->
     IsSyncing data = false \/ (HeadSlot data = 0 /\ SyncDistance data <= 1)) /\
  synced_of sync_bootstrapping = true /\
  synced_of sync_behind = false.
Proof.
  intros Hgate s' detection. subst s' detection.
  unfold service_after, execState.
  split; [|split; [|split; [|split]]].
  - intros err Hreply. destruct (connectionActive s) eqn:Hwas.
    + rewrite (run_ping_deactivation ctx s w Hgate Hwas Hreply).
      split; reflexivity.
    + rewrite (run_ping_still_down ctx s w Hgate Hwas Hreply).
      split; reflexivity.
  - intros data Hreply. split.
    { unfold evalState. rewrite ping_probe_free by assumption.
      cbn [fst]. rewrite Hreply. reflexivity. }
    destruct (connectionActive s) eqn:Hwas.
    + rewrite (run_ping_steady ctx s w Hgate Hwas Hreply).
      split; [intros _; split; reflexivity | discriminate].
    + rewrite (run_ping_activation ctx s w Hgate Hwas Hreply). cbv zeta.
      rewrite run_ping_commit. cbn [fst snd connectionActive connectionSynced
                                    set_conn].
      unfold evalState.
      destruct (fst (runState (checkDVT context_Background)
                       (s, after_syncing w))) as [err|].
      * split; [intros [Habs|Habs]; discriminate | reflexivity].
      * split; [intros _; split; reflexivity | intros _ Habs; congruence].
  - apply synced_of_rule.
  - reflexivity.
  - reflexivity.
Qed.

(** While nothing else runs, a [ping] that does not get the permit
    sends no sync-status request and no version request, runs no
    transition side effect and leaves the service, and with it the
    stored pair ([connectionActive], [connectionSynced]), as it was; it
    only publishes the unchanged state to the metrics. *)
Theorem ping_gate_busy ctx s w :
  permit_free s = false ->
  let st' := execState (ping ctx) (s, w) in
  fst st' = s /\
  (connectionActive (fst st'), connectionSynced (fst st'))
    = (connectionActive s, connectionSynced s) /\
  probes (ping ctx) (s, w) = 0%nat /\
  occurrences EvNodeVersion (trace (snd st'))
    = occurrences EvNodeVersion (trace w) /\
  syncingReplies (snd st') = syncingReplies w /\
  versionReplies (snd st') = versionReplies w /\
  trace (snd st')
    = trace w ++ [EvMonitorActive (connectionActive s);
                  EvMonitorSynced (connectionSynced s)].
Proof.
  intros Hgate st'. subst st'. unfold probes, world_after, execState.
  rewrite run_ping_busy by assumption. cbn [fst snd].
  repeat split.
  - rewrite !occurrences_emit. cbn. lia.
  - rewrite !occurrences_emit. cbn. lia.
  - cbn. rewrite <- app_assoc. reflexivity.
Qed.

(** C3.  A [ping] that sees the service go from inactive to active runs
    [checkDVT] (under the background context) before it stores the
    state; when [checkDVT] returns an error, as it does when the version
    fetch fails, the state stored is inactive.  [ping] has no result, so
    the error reaches no caller. *)
Theorem ping_activation_detects_middleware ctx s w data :
  permit_free s = true ->
  connectionActive s = false ->
  fst (take_syncing w) = Ok data ->
  let detected := runState (checkDVT context_Background) (s, after_syncing w) in
  runState (ping ctx) (s, w)
    = runState
        (ping_commit
           (match fst detected with Some _ => false | None => true end)
           (synced_of data))
        (snd detected) /\
  (forall err, fst detected = Some err ->
     runState (ping ctx) (s, w)
       = runState (ping_commit false (synced_of data)) (snd detected) /\
     connectionActive (service_after (ping ctx) (s, w)) = false) /\
  (forall err, nodeVersion s = ""%string -> fst (take_version w) = Fail err ->
     fst detected
       = Some (errors_Join
                 (errors_New "failed to obtain node version for DVT check")
                 err) /\
     connectionActive (service_after (ping ctx) (s, w)) = false).
Proof.
  intros Hgate Hwas Hreply detected.
  pose proof (run_ping_activation ctx s w Hgate Hwas Hreply) as Hrun.
  cbv zeta in Hrun. fold detected in Hrun.
  assert (Hfail : forall err, fst detected = Some err ->
            runState (ping ctx) (s, w)
              = runState (ping_commit false (synced_of data)) (snd detected) /\
            connectionActive (service_after (ping ctx) (s, w)) = false).
  { intros err Herr. unfold service_after, execState.
    rewrite Hrun, Herr. split; reflexivity. }
  split; [exact Hrun|]. split; [exact Hfail|].
  intros err Hcache Hversion.
  assert (Hdetected : fst detected
            = Some (errors_Join
                      (errors_New "failed to obtain node version for DVT check")
                      err)).
  { unfold detected.
    rewrite (checkDVT_fetch_fails s (after_syncing w) (err:=err)); auto.
    rewrite fst_take_version_after_syncing. exact Hversion. }
  split; [exact Hdetected|]. apply (Hfail _ Hdetected).
Qed.

(** C4 (the code departs from it).  A fresh, inactive service probes a
    node that is synced but whose version fetch fails: [ping] takes the
    activation back and stores active = false, and it stores
    synced = true with it.  [assertIsSynced] then reports success
    without a probe although the service is inactive. *)
Theorem ping_aborted_activation_stores_synced_inactive :
  let st := (fresh_service, node_without_version) in
  let st' := execState (ping context_Background) st in
  permit_free (fst st) = true /\
  connectionActive (fst st) = false /\
  connectionSynced (fst st) = false /\
  fst (take_syncing (snd st)) = Ok sync_done /\
  fst (take_version (snd st)) = Fail unreachable /\
  connectionActive (fst st') = false /\
  connectionSynced (fst st') = true /\
  runState (assertIsSynced context_Background) st' = (None, st').
Proof. vm_compute. repeat split. Qed.

(** Apart from that one path, [ping] keeps "synced only when active". *)
Lemma ping_invariant_unless_aborted ctx s w :
  (connectionSynced s = true -> connectionActive s = true) ->
  let s' := service_after (ping ctx) (s, w) in
  (connectionSynced s' = true -> connectionActive s' = true) \/
  (connectionActive s = false /\
   permit_free s = true /\
   exists data err,
     fst (take_syncing w) = Ok data /\
     synced_of data = true /\
     evalState (checkDVT context_Background) (s, after_syncing w) = Some err).
Proof.
  intros Hinv s'. subst s'. unfold service_after, execState.
  destruct (permit_free s) eqn:Hgate.
  - destruct (fst (take_syncing w)) as [data|err] eqn:Hreply,
      (connectionActive s) eqn:Hwas.
    + left. rewrite (run_ping_steady ctx s w Hgate Hwas Hreply). reflexivity.
    + rewrite (run_ping_activation ctx s w Hgate Hwas Hreply). cbv zeta.
      rewrite run_ping_commit. cbn [fst snd connectionActive connectionSynced set_conn].
      unfold evalState.
      destruct (fst (runState (checkDVT context_Background)
                       (s, after_syncing w))) as [err|] eqn:Hdvt.
      * destruct (synced_of data) eqn:Hsynced.
        -- right. repeat split. exists data, err. repeat split; assumption.
        -- left. discriminate.
      * left. reflexivity.
    + left. rewrite (run_ping_deactivation ctx s w Hgate Hwas Hreply).
      cbn. discriminate.
    + left. rewrite (run_ping_still_down ctx s w Hgate Hwas Hreply).
      cbn. discriminate.
  - left. rewrite run_ping_busy by assumption. exact Hinv.
Qed.

(** C5.  A [ping] that sees the service go from active to inactive sets
    the five static values (genesis, spec, deposit contract, fork
    schedule, node version) back to empty; the next read of a fact, here
    the node version, sends a request again. *)
Theorem ping_deactivation_clears_static_values ctx s w err :
  permit_free s = true ->
  connectionActive s = true ->
  fst (take_syncing w) = Fail err ->
  let st' := execState (ping ctx) (s, w) in
  connectionActive (fst st') = false /\
  genesis (fst st') = None /\
  spec (fst st') = None /\
  depositContract (fst st') = None /\
  forkSchedule (fst st') = None /\
  nodeVersion (fst st') = ""%string /\
  (forall ctx', ctx_Err ctx' = None ->
     occurrences EvNodeVersion (trace (world_after (NodeVersion ctx') st'))
     = S (occurrences EvNodeVersion (trace (snd st')))).
Proof.
  intros Hgate Hwas Hreply st'. subst st'. unfold execState.
  rewrite (run_ping_deactivation ctx s w Hgate Hwas Hreply). cbn [fst snd].
  repeat split.
  intros ctx' Hctx. unfold world_after, execState.
  rewrite run_NodeVersion. cbn [nodeVersion set_conn set_static].
  rewrite Hctx. cbn [String.eqb negb].
  match goal with
  | |- context [match fst (take_version ?w0) with _ => _ end] =>
      destruct (fst (take_version w0))
  end;
    cbn [fst snd]; rewrite trace_take_version, occurrences_app; cbn; lia.
Qed.

(** C6 (as amended).  [assertIsSynced] on a service whose cached state
    is synced returns nil and touches neither the service nor the world.
    Otherwise it calls [ping] once, which sends one sync-status request
    when the permit is free and none when another probe holds it, and
    then returns [ErrNotActive] if the stored state is inactive,
    [ErrNotSynced] if it is active but not synced, and nil otherwise. *)
Theorem assertIsSynced_guard ctx s w :
  (connectionSynced s = true ->
     runState (assertIsSynced ctx) (s, w) = (None, (s, w)) /\
     probes (assertIsSynced ctx) (s, w) = 0%nat) /\
  (connectionSynced s = false ->
     let st' := execState (ping ctx) (s, w) in
     runState (assertIsSynced ctx) (s, w) = (synced_guard (fst st'), st') /\
     (connectionActive (fst st') = false ->
        evalState (assertIsSynced ctx) (s, w) = Some ErrNotActive) /\
     (connectionActive (fst st') = true -> connectionSynced (fst st') = false ->
        evalState (assertIsSynced ctx) (s, w) = Some ErrNotSynced) /\
     (connectionActive (fst st') = true -> connectionSynced (fst st') = true ->
        evalState (assertIsSynced ctx) (s, w) = None) /\
     probes (assertIsSynced ctx) (s, w) = if permit_free s then 1%nat else 0%nat).
Proof.
  split.
  - intros Hsynced. unfold probes, world_after, execState.
    rewrite run_assertIsSynced, Hsynced. cbn [fst snd]. split; [reflexivity|lia].
  - intros Hsynced st'. unfold probes, world_after, evalState, execState.
    rewrite run_assertIsSynced, Hsynced. cbv zeta. fold st'. cbn [fst snd].
    unfold synced_guard.
    repeat split.
    + intros Ha. rewrite Ha. reflexivity.
    + intros Ha Hs. rewrite Ha, Hs. reflexivity.
    + intros Ha Hs. rewrite Ha, Hs. reflexivity.
    + pose proof (ping_sends_probe ctx s w) as Hcount.
      unfold world_after in Hcount. fold st' in Hcount. rewrite Hcount.
      destruct (permit_free s); lia.
Qed.

(** C7.  When the probe [New] runs on the service it has built leaves it
    inactive, [New] returns [ErrNotActive] and no service if delayed
    start is not allowed, and returns the service, inactive, and no
    error if it is allowed. *)
Theorem New_construction_gating
    (Param : Type)
    (parseAndCheckParameters : list Param -> Result (parameters Monitor))
    (registerMetrics : Context -> Monitor -> option error)
    (url_Parse : string -> Result URL)
    ctx (params : list Param) w (p : parameters Monitor) (b : URL) :
  parseAndCheckParameters params = Ok p ->
  match p_monitor p with
  | Some monitor => registerMetrics ctx monitor
  | None => None
  end = None ->
  url_Parse (normalize_address (p_address p)) = Ok b ->
  let st' := execState (ping ctx) ((new_Service p b : Svc), w) in
  connectionActive (fst st') = false ->
  (p_allowDelayedStart p = false ->
     New parseAndCheckParameters registerMetrics url_Parse ctx params w
     = ((@None Svc, Some ErrNotActive), snd st')) /\
  (p_allowDelayedStart p = true ->
     exists w',
       New parseAndCheckParameters registerMetrics url_Parse ctx params w
       = ((Some (fst st'), None), w') /\
       forall ctx' w'', evalState (IsActive ctx') (fst st', w'') = false).
Proof.
  intros Hparse Hmetrics Hurl st' Hinactive.
  unfold New. rewrite Hparse, Hmetrics, Hurl.
  unfold execState in st'.
  destruct (runState (ping ctx) (new_Service p b, w)) as [[] st1] eqn:Hping.
  cbn [snd] in st'. subst st'.
  destruct st1 as [s1 w1]. cbn [fst snd] in *.
  unfold IsActive. rewrite run_read. cbn [fst snd]. rewrite Hinactive.
  split; intros Hdelayed; rewrite Hdelayed; cbn [negb andb].
  - reflexivity.
  - eexists. split; [reflexivity|].
    intros ctx' w''. unfold evalState. rewrite run_read. exact Hinactive.
Qed.

(** C8.  [clearStaticValues] leaves [connectedToDVTMiddleware] as it
    is, and so does a [ping] that sees the service go from active to
    inactive; whatever is called on a service, a flag that is true stays
    true. *)
Theorem connectedToDVTMiddleware_sticky :
  (forall st,
     connectedToDVTMiddleware (service_after clearStaticValues st)
     = connectedToDVTMiddleware (fst st)) /\
  (forall ctx s w err,
     permit_free s = true ->
     connectionActive s = true ->
     fst (take_syncing w) = Fail err ->
     connectedToDVTMiddleware (service_after (ping ctx) (s, w))
     = connectedToDVTMiddleware s) /\
  (forall cs st,
     connectedToDVTMiddleware (fst st) = true ->
     connectedToDVTMiddleware (service_after (calls cs) st) = true).
Proof.
  repeat split.
  - intros ctx s w err Hgate Hwas Hreply. unfold service_after, execState.
    rewrite (run_ping_deactivation ctx s w Hgate Hwas Hreply). reflexivity.
  - intros cs st Hset. apply (calls_kept cs st). exact Hset.
Qed.

(** C9.  [ping] does not depend on its context argument: for any two
    contexts, cancelled or not, it returns the same result and leaves
    the same service and world, because its probe and its transition,
    and with it the middleware detection, run under
    [context.Background()]. *)
Theorem ping_context_independent ctx1 ctx2 st :
  runState (ping ctx1) st = runState (ping ctx2) st /\
  runState (ping ctx1) st
  = let wasActive := connectionActive (fst st) in
    let wasSynced := connectionSynced (fst st) in
    let probed :=
      runState (ping_probe context_Background wasActive wasSynced) st in
    let moved :=
      runState (ping_transition context_Background wasActive wasSynced
                  (fst (fst probed)) (snd (fst probed))) (snd probed) in
    runState (ping_commit (fst moved) (snd (fst probed))) (snd moved).
Proof.
  split; [reflexivity|]. destruct st as [s w]. apply run_ping.
Qed.

(** The context matters to the calls themselves: under a cancelled
    context the sync-status call is aborted, while [ping] still probes. *)
Lemma NodeSyncing_cancelled ctx err st :
  ctx_Err ctx = Some err ->
  runState (NodeSyncing ctx) st = (Fail err, st).
Proof. intros Hctx. unfold NodeSyncing. rewrite Hctx. reflexivity. Qed.

(** C10.  A service returned by [New] answers [Address()] with the
    address string of the parsed options, after whatever calls, while
    [base] is parsed from the normalized address ("http://" prepended
    when the address does not start with "http", "/" appended when it
    does not end with it). *)
Theorem Address_returns_supplied_address
    (Param : Type)
    (parseAndCheckParameters : list Param -> Result (parameters Monitor))
    (registerMetrics : Context -> Monitor -> option error)
    (url_Parse : string -> Result URL)
    ctx (params : list Param) w s w' :
  New parseAndCheckParameters registerMetrics url_Parse ctx params w
  = ((Some s, None), w') ->
  exists p,
    parseAndCheckParameters params = Ok p /\
    url_Parse (normalize_address (p_address p)) = Ok (base s) /\
    evalState Address (s, w') = p_address p /\
    forall cs w'', evalState Address (execState (calls cs) (s, w'')) = p_address p.
Proof.
  unfold New. intros Hnew.
  destruct (parseAndCheckParameters params) as [p|] eqn:Hparse;
    [|discriminate].
  destruct (match p_monitor p with
            | Some monitor => registerMetrics ctx monitor
            | None => None
            end); [discriminate|].
  destruct (url_Parse (normalize_address (p_address p))) as [b|] eqn:Hurl;
    [|discriminate].
  pose proof (ping_kept ctx ((new_Service p b : Svc), w)) as Hkept.
  unfold service_after, execState in Hkept.
  destruct (runState (ping ctx) (new_Service p b, w)) as [[] [s1 w1]].
  cbn [fst snd] in *.
  unfold IsActive in Hnew. rewrite run_read in Hnew. cbn [fst snd] in Hnew.
  destruct (negb (connectionActive s1) && negb (p_allowDelayedStart p));
    [discriminate|].
  injection Hnew as Hs Hw. subst s1.
  destruct Hkept as (Hbase & Haddress & _).
  cbn [base address new_Service] in Hbase, Haddress.
  exists p. split; [reflexivity|].
  split; [rewrite Hurl, Hbase; reflexivity|].
  split.
  - unfold evalState, Address. rewrite run_read. exact Haddress.
  - intros cs w''. unfold evalState, Address.
    destruct (execState (calls cs) (s, w'')) as [s2 w2] eqn:Hcalls.
    rewrite run_read. cbn [fst].
    pose proof (calls_kept cs (s, w'')) as Hkept2.
    unfold service_after in Hkept2. rewrite Hcalls in Hkept2.
    destruct Hkept2 as (_ & Haddress2 & _). cbn [fst] in Haddress2.
    congruence.
Qed.

End Properties.

(** ** The properties at concrete services and nodes *)

(** C1, as first stated, promises active = true after every successful
    sync-status call.  A fresh service probing a synced node whose
    version fetch fails stores active = false. *)
Lemma ping_sync_success_stores_inactive :
  ~ (forall data,
       fst (take_syncing node_without_version) = Ok data ->
       connectionActive
         (service_after (ping context_Background)
            (fresh_service, node_without_version)) = true /\
       connectionSynced
         (service_after (ping context_Background)
            (fresh_service, node_without_version)) = synced_of data).
Proof.
  intros Hclaim. destruct (Hclaim sync_done eq_refl) as [Hactive _].
  vm_compute in Hactive. discriminate.
Qed.

Lemma ping_sync_outcome_witness :
  permit_free fresh_service = true /\
  connectionActive
    (service_after (ping cancelled_ctx) (fresh_service, node_up)) = true /\
  connectionSynced
    (service_after (ping cancelled_ctx) (fresh_service, node_up))
  = synced_of sync_done.
Proof.
  split; [reflexivity|].
  destruct (ping_sync_outcome cancelled_ctx fresh_service node_up eq_refl)
    as (_ & Hok & _).
  destruct (Hok sync_done eq_refl) as (_ & Hstored & _).
  assert (Hdetected :
            evalState (checkDVT context_Background)
              (fresh_service, after_syncing node_up) = None)
    by (vm_compute; reflexivity).
  exact (Hstored (or_intror Hdetected)).
Defined.

Lemma ping_gate_busy_witness :
  permit_free gated_service = false /\
  service_after (ping context_Background) (gated_service, node_up)
  = gated_service /\
  probes (ping context_Background) (gated_service, node_up) = 0%nat.
Proof.
  split; [reflexivity|].
  destruct (ping_gate_busy context_Background gated_service node_up eq_refl)
    as (Hsame & _ & Hprobes & _).
  split; [exact Hsame | exact Hprobes].
Defined.

Lemma ping_activation_detects_middleware_witness :
  permit_free fresh_service = true /\
  connectionActive fresh_service = false /\
  fst (take_syncing node_without_version) = Ok sync_done /\
  connectionActive
    (service_after (ping context_Background)
       (fresh_service, node_without_version)) = false.
Proof.
  split; [reflexivity|]. split; [reflexivity|]. split; [reflexivity|].
  destruct (ping_activation_detects_middleware context_Background
              fresh_service node_without_version
              eq_refl eq_refl eq_refl) as (_ & _ & Hfetch).
  destruct (Hfetch unreachable eq_refl eq_refl) as [_ Hinactive].
  exact Hinactive.
Defined.

Lemma ping_deactivation_clears_static_values_witness :
  permit_free running_service = true /\
  connectionActive running_service = true /\
  fst (take_syncing node_down) = Fail unreachable /\
  genesis running_service = Some tt /\
  genesis (service_after (ping context_Background) (running_service, node_down))
  = None /\
  nodeVersion (service_after (ping context_Background) (running_service, node_down))
  = ""%string.
Proof.
  split; [reflexivity|]. split; [reflexivity|]. split; [reflexivity|].
  split; [reflexivity|]. split.
  - destruct (ping_deactivation_clears_static_values context_Background
                running_service node_down eq_refl eq_refl eq_refl)
      as (_ & Hgenesis & _).
    exact Hgenesis.
  - destruct (ping_deactivation_clears_static_values context_Background
                running_service node_down eq_refl eq_refl eq_refl)
      as (_ & _ & _ & _ & _ & Hversion & _).
    exact Hversion.
Defined.

(** C6, as first stated, promises exactly one probe whenever the cached
    state is not synced.  With the permit held by another probe,
    [assertIsSynced] sends no sync-status request. *)
Lemma assertIsSynced_gate_busy_sends_no_probe :
  ~ (connectionSynced gated_service = false ->
     probes (assertIsSynced context_Background) (gated_service, node_up)
     = 1%nat).
Proof.
  intros Hclaim. specialize (Hclaim eq_refl).
  vm_compute in Hclaim. discriminate.
Qed.

Lemma assertIsSynced_guard_witness :
  (connectionSynced running_service = true /\
   runState (assertIsSynced context_Background) (running_service, node_down)
   = (None, (running_service, node_down))) /\
  (connectionSynced fresh_service = false /\
   evalState (assertIsSynced context_Background) (fresh_service, node_down)
   = Some ErrNotActive /\
   probes (assertIsSynced context_Background) (fresh_service, node_down)
   = 1%nat) /\
  (connectionSynced gated_service = false /\
   probes (assertIsSynced context_Background) (gated_service, node_up)
   = 0%nat).
Proof.
  split; [|split].
  - split; [reflexivity|].
    destruct (assertIsSynced_guard context_Background running_service node_down)
      as [Hfast _].
    exact (proj1 (Hfast eq_refl)).
  - split; [reflexivity|].
    destruct (assertIsSynced_guard context_Background fresh_service node_down)
      as [_ Hslow].
    destruct (Hslow eq_refl) as (_ & Hinactive & _ & _ & Hprobes).
    split; [exact (Hinactive eq_refl) | exact Hprobes].
  - split; [reflexivity|].
    destruct (assertIsSynced_guard context_Background gated_service node_up)
      as [_ Hslow].
    destruct (Hslow eq_refl) as (_ & _ & _ & _ & Hprobes).
    exact Hprobes.
Defined.

Lemma New_construction_gating_witness :
  fst (New parse_first no_metrics parse_url context_Background
         [local_params false] node_down)
  = (@None (Service unit unit unit unit string), Some ErrNotActive) /\
  exists w',
    New parse_first no_metrics parse_url context_Background
      [local_params true] node_down
    = ((Some (delayed_service : Service unit unit unit unit string), None), w')
    /\
    evalState (IsActive context_Background) (delayed_service, w') = false.
Proof.
  split.
  - destruct (New_construction_gating (Genesis:=unit) (DepositContract:=unit)
                (Fork:=unit) (SpecValue:=unit)
                parse_first no_metrics parse_url
                context_Background [local_params false] node_down
                (p:=local_params false) (b:="http://localhost:5052/"%string)
                eq_refl eq_refl eq_refl eq_refl) as [Hstrict _].
    rewrite (Hstrict eq_refl). reflexivity.
  - destruct (New_construction_gating (Genesis:=unit) (DepositContract:=unit)
                (Fork:=unit) (SpecValue:=unit)
                parse_first no_metrics parse_url
                context_Background [local_params true] node_down
                (p:=local_params true) (b:="http://localhost:5052/"%string)
                eq_refl eq_refl eq_refl eq_refl) as [_ Hdelayed].
    destruct (Hdelayed eq_refl) as (w' & Hnew & Hinactive).
    exists w'. split; [exact Hnew | exact (Hinactive context_Background w')].
Defined.

Lemma connectedToDVTMiddleware_sticky_witness :
  connectedToDVTMiddleware running_service = true /\
  connectedToDVTMiddleware
    (service_after (ping context_Background) (running_service, node_down))
  = true /\
  connectedToDVTMiddleware
    (service_after
       (calls [CallPing cancelled_ctx; CallClearStaticValues;
               CallAssertIsSynced context_Background;
               CallCheckDVT context_Background])
       (running_service, node_down))
  = true.
Proof.
  split; [reflexivity|].
  destruct (@connectedToDVTMiddleware_sticky unit unit unit unit string)
    as (_ & Hping & Hcalls).
  split.
  - rewrite (Hping context_Background running_service node_down unreachable
               eq_refl eq_refl eq_refl).
    reflexivity.
  - apply Hcalls. reflexivity.
Defined.

(** A cancelled caller context does not keep [ping] from activating the
    service. *)
Example ping_under_cancelled_context :
  runState (NodeSyncing cancelled_ctx) (fresh_service, node_up)
  = (Fail context_Canceled, (fresh_service, node_up)) /\
  connectionActive (service_after (ping cancelled_ctx) (fresh_service, node_up))
  = true /\
  connectedToDVTMiddleware
    (service_after (ping cancelled_ctx) (fresh_service, node_up))
  = true.
Proof. repeat split. Qed.

Lemma Address_returns_supplied_address_witness :
  exists s w',
    New parse_first no_metrics parse_url context_Background
      [local_params true] node_up
    = ((Some (s : Service unit unit unit unit string), None), w') /\
    base s = "http://localhost:5052/"%string /\
    evalState Address
      (execState (calls [CallPing cancelled_ctx; CallClearStaticValues])
         (s, node_down))
    = "localhost:5052"%string.
Proof.
  pose (r := New (Genesis:=unit) (DepositContract:=unit) (Fork:=unit)
               (SpecValue:=unit) parse_first no_metrics parse_url
               context_Background [local_params true] node_up).
  assert (Hnew : r = ((Some (set_nodeVersion "Charon/v1.0.0"
                               (set_conn (semaphore.NewWeighted 1) true true true
                                  (new_Service (local_params true)
                                     "http://localhost:5052/"%string))),
                       None), snd r))
    by (vm_compute; reflexivity).
  eexists. exists (snd r). split; [exact Hnew|].
  destruct (Address_returns_supplied_address parse_first no_metrics parse_url
              context_Background [local_params true] node_up Hnew)
    as (p & Hparse & _ & _ & Hcalls).
  injection Hparse as <-.
  split; [reflexivity|].
  exact (Hcalls [CallPing cancelled_ctx; CallClearStaticValues] node_down).
Defined.

(** ** Further properties of the service *)

Section Gate.

Context {Genesis DepositContract Fork SpecValue URL : Type}.

Local Abbreviation Svc := (Service Genesis DepositContract Fork SpecValue URL).
Local Abbreviation St := (Svc * World)%type.

Implicit Types (s : Svc) (w : World) (st : St) (ctx : Context).

(** What only [ping] and [clearStaticValues] write to. *)
Lemma checkDVT_frame ctx st :
  let s' := service_after (checkDVT ctx) st in
  pingSem s' = pingSem (fst st) /\
  connectionActive s' = connectionActive (fst st) /\
  connectionSynced s' = connectionSynced (fst st) /\
  genesis s' = genesis (fst st) /\
  spec s' = spec (fst st) /\
  depositContract s' = depositContract (fst st) /\
  forkSchedule s' = forkSchedule (fst st).
Proof.
  destruct st as [s w]. unfold service_after, execState, checkDVT.
  rewrite run_bind. unfold evalState, execState. rewrite run_NodeVersion.
  destruct (negb (nodeVersion s =? "")%string); cbn [fst snd].
  - destruct (strings_Contains (strings_ToLower (nodeVersion s)) "charon");
      cbn; repeat split.
  - destruct (ctx_Err ctx); cbn [fst snd]; [cbn; repeat split|].
    destruct (fst (take_version w)) as [version|err]; cbn [fst snd];
      [|cbn; repeat split].
    destruct (strings_Contains (strings_ToLower version) "charon");
      cbn; repeat split.
Qed.

Lemma checkDVT_trace_extends ctx st :
  exists t,
    trace (world_after (checkDVT ctx) st) = trace (snd st) ++ t /\
    forall e, Event_eqb e EvNodeVersion = false -> occurrences e t = 0%nat.
Proof.
  destruct st as [s w]. unfold world_after, execState, checkDVT.
  rewrite run_bind. unfold evalState, execState. rewrite run_NodeVersion.
  assert (Hnil : exists t, trace w = trace w ++ t /\
            forall e, Event_eqb e EvNodeVersion = false ->
                      occurrences e t = 0%nat)
    by (exists []; split; [symmetry; apply app_nil_r | reflexivity]).
  assert (Hone : exists t, trace w ++ [EvNodeVersion] = trace w ++ t /\
            forall e, Event_eqb e EvNodeVersion = false ->
                      occurrences e t = 0%nat).
  { exists [EvNodeVersion]. split; [reflexivity|].
    intros e He. unfold occurrences. cbn. rewrite He. reflexivity. }
  destruct (negb (nodeVersion s =? "")%string); cbn [fst snd].
  - destruct (strings_Contains (strings_ToLower (nodeVersion s)) "charon");
      exact Hnil.
  - destruct (ctx_Err ctx); cbn [fst snd]; [exact Hnil|].
    destruct (fst (take_version w)) as [version|err]; cbn [fst snd].
    + destruct (strings_Contains (strings_ToLower version) "charon");
        cbn -[take_version emit occurrences];
        rewrite trace_take_version; exact Hone.
    + cbn -[take_version emit occurrences].
      rewrite trace_take_version. exact Hone.
Qed.

Lemma ping_gate ctx st : pingSem (service_after (ping ctx) st) = pingSem (fst st).
Proof.
  destruct st as [s w]. unfold service_after, execState. cbn [fst].
  destruct (permit_free s) eqn:Hgate.
  - destruct (fst (take_syncing w)) as [data|err] eqn:Hreply,
      (connectionActive s) eqn:Hwas.
    + rewrite (run_ping_steady ctx s w Hgate Hwas Hreply). reflexivity.
    + rewrite (run_ping_activation ctx s w Hgate Hwas Hreply). cbv zeta.
      rewrite run_ping_commit. cbn [fst snd pingSem set_conn].
      apply (checkDVT_frame context_Background (s, after_syncing w)).
    + rewrite (run_ping_deactivation ctx s w Hgate Hwas Hreply). reflexivity.
    + rewrite (run_ping_still_down ctx s w Hgate Hwas Hreply). reflexivity.
  - rewrite run_ping_busy by assumption. reflexivity.
Qed.

Lemma call_gate c st : pingSem (service_after (call c) st) = pingSem (fst st).
Proof.
  destruct c; unfold service_after, execState, call; rewrite run_bind || idtac;
    unfold evalState, execState; cbn [runState ret Monad_state snd fst].
  - apply ping_gate.
  - destruct st; reflexivity.
  - apply (checkDVT_frame ctx st).
  - destruct st as [s w]. rewrite run_NodeVersion.
    destruct (negb (nodeVersion s =? "")%string); [reflexivity|].
    destruct (ctx_Err ctx); [reflexivity|].
    destruct (fst (take_version w)); reflexivity.
  - destruct st as [s w]. unfold NodeSyncing.
    destruct (ctx_Err ctx); [reflexivity|]. cbn.
    destruct (take_syncing (emit EvNodeSyncing w)); reflexivity.
  - reflexivity.
  - reflexivity.
  - destruct st as [s w]. rewrite run_assertIsActive.
    destruct (connectionActive s); [reflexivity|].
    apply (ping_gate ctx (s, w)).
  - destruct st as [s w]. rewrite run_assertIsSynced.
    destruct (connectionSynced s); [reflexivity|].
    apply (ping_gate ctx (s, w)).
  - reflexivity.
  - reflexivity.
Qed.

Lemma calls_gate cs : forall st,
  pingSem (service_after (calls cs) st) = pingSem (fst st).
Proof.
  induction cs as [|c rest IH]; intros st.
  - reflexivity.
  - unfold service_after, execState. cbn [calls]. rewrite run_bind.
    unfold evalState, execState.
    pose proof (IH (snd (runState (call c) st))) as Hrest.
    unfold service_after, execState in Hrest. rewrite Hrest.
    apply call_gate.
Qed.

(** X1.  [ping] hands the permit back on every path: the probe gate is
    after a [ping] what it was before, whether the permit was free or
    held and whether the sync-status call succeeded or failed. *)
Theorem ping_releases_permit ctx st :
  pingSem (service_after (ping ctx) st) = pingSem (fst st) /\
  permit_free (service_after (ping ctx) st) = permit_free (fst st).
Proof.
  pose proof (ping_gate ctx st) as Hgate.
  split; [exact Hgate|]. unfold permit_free. rewrite Hgate. reflexivity.
Qed.

(** X2.  On a service returned by [New] the permit is free after any
    sequence of calls, so every later [ping] probes. *)
Theorem New_gate_stays_free
    (Monitor Param : Type)
    (parseAndCheckParameters : list Param -> Result (parameters Monitor))
    (registerMetrics : Context -> Monitor -> option error)
    (url_Parse : string -> Result URL)
    ctx (params : list Param) w s w' :
  New parseAndCheckParameters registerMetrics url_Parse ctx params w
  = ((Some s, None), w') ->
  forall cs w'' ctx',
    permit_free (service_after (calls cs) (s, w'')) = true /\
    probes (ping ctx') (execState (calls cs) (s, w'')) = 1%nat.
Proof.
  unfold New. intros Hnew.
  destruct (parseAndCheckParameters params) as [p|]; [|discriminate].
  destruct (match p_monitor p with
            | Some monitor => registerMetrics ctx monitor
            | None => None
            end); [discriminate|].
  destruct (url_Parse (normalize_address (p_address p))) as [b|];
    [|discriminate].
  pose proof (ping_gate ctx ((new_Service p b : Svc), w)) as Hgate.
  unfold service_after, execState in Hgate.
  destruct (runState (ping ctx) (new_Service p b, w)) as [[] [s1 w1]].
  cbn [fst snd] in *.
  unfold IsActive in Hnew. rewrite run_read in Hnew. cbn [fst snd] in Hnew.
  destruct (negb (connectionActive s1) && negb (p_allowDelayedStart p));
    [discriminate|].
  injection Hnew as Hs Hw. subst s1.
  intros cs w'' ctx'.
  assert (Hfree : permit_free (service_after (calls cs) (s, w'')) = true).
  { unfold permit_free. rewrite calls_gate. cbn [fst]. rewrite Hgate.
    reflexivity. }
  split; [exact Hfree|].
  unfold probes. unfold service_after in Hfree.
  destruct (execState (calls cs) (s, w'')) as [s2 w2]. cbn [fst snd] in *.
  rewrite ping_sends_probe, Hfree. lia.
Qed.

End Gate.

Section Further.

Context {Genesis DepositContract Fork SpecValue URL : Type}.

Local Abbreviation Svc := (Service Genesis DepositContract Fork SpecValue URL).
Local Abbreviation St := (Svc * World)%type.

Implicit Types (s : Svc) (w : World) (st : St) (ctx : Context).

(** The five ways through [ping], one goal each. *)
Ltac ping_paths ctx s w :=
  unfold service_after, world_after, execState;
  destruct (permit_free s) eqn:Hgate;
  [ destruct (fst (take_syncing w)) as [data|err] eqn:Hreply,
      (connectionActive s) eqn:Hwas;
    [ rewrite (run_ping_steady ctx s w Hgate Hwas Hreply)
    | rewrite (run_ping_activation ctx s w Hgate Hwas Hreply);
      cbv zeta; rewrite run_ping_commit
    | rewrite (run_ping_deactivation ctx s w Hgate Hwas Hreply)
    | rewrite (run_ping_still_down ctx s w Hgate Hwas Hreply) ]
  | rewrite (run_ping_busy ctx s w Hgate) ].

Lemma occurrences_single e e' :
  occurrences e [e'] = if Event_eqb e e' then 1%nat else 0%nat.
Proof. unfold occurrences. cbn. destruct (Event_eqb e e'); reflexivity. Qed.

Lemma checkDVT_fetches_background s w :
  occurrences EvNodeVersion
    (trace (world_after (checkDVT context_Background) (s, w)))
  = (occurrences EvNodeVersion (trace w)
     + if (nodeVersion s =? "")%string then 1 else 0)%nat.
Proof.
  unfold world_after, execState, checkDVT.
  rewrite run_bind. unfold evalState, execState. rewrite run_NodeVersion.
  destruct (nodeVersion s =? "")%string; cbn [negb fst snd ctx_Err].
  - destruct (fst (take_version w)) as [version|err]; cbn [fst snd].
    + destruct (strings_Contains (strings_ToLower version) "charon");
        cbn -[take_version emit occurrences];
        rewrite trace_take_version, occurrences_app, occurrences_single;
        reflexivity.
    + cbn -[take_version emit occurrences].
      rewrite trace_take_version, occurrences_app, occurrences_single.
      reflexivity.
  - destruct (strings_Contains (strings_ToLower (nodeVersion s)) "charon");
      cbn -[occurrences]; lia.
Qed.

(** X3.  Every [ping] ends by publishing to the metrics exactly the
    state it has stored: the trace grows by the requests sent, which
    hold no metric update, and then by [monitorActive] and
    [monitorSynced] of the stored pair. *)
Theorem ping_publishes_stored_state ctx st :
  let s' := service_after (ping ctx) st in
  exists t,
    trace (world_after (ping ctx) st)
    = trace (snd st) ++ t
      ++ [EvMonitorActive (connectionActive s');
          EvMonitorSynced (connectionSynced s')] /\
    (forall b, occurrences (EvMonitorActive b) t = 0%nat) /\
    (forall b, occurrences (EvMonitorSynced b) t = 0%nat).
Proof.
  destruct st as [s w]. cbv zeta. cbn [snd].
  ping_paths ctx s w; cbn [fst snd connectionActive connectionSynced set_conn].
  - exists [EvNodeSyncing]. cbn [emit trace]. rewrite trace_after_syncing.
    rewrite <- !app_assoc. repeat split.
  - destruct (checkDVT_trace_extends context_Background (s, after_syncing w))
      as (t & Htrace & Hnone).
    unfold world_after, execState in Htrace. cbn [snd] in Htrace.
    exists (EvNodeSyncing :: t). cbn [emit trace].
    rewrite Htrace, trace_after_syncing. rewrite <- !app_assoc.
    split; [reflexivity|].
    split; intros b;
      change (EvNodeSyncing :: t) with ([EvNodeSyncing] ++ t);
      rewrite occurrences_app, Hnone by reflexivity; reflexivity.
  - exists [EvNodeSyncing]. cbn [emit trace]. rewrite trace_after_syncing.
    rewrite <- !app_assoc. repeat split.
  - exists [EvNodeSyncing]. cbn [emit trace]. rewrite trace_after_syncing.
    rewrite <- !app_assoc. repeat split.
  - exists []. cbn [emit trace]. rewrite <- !app_assoc. repeat split.
Qed.

(** X4.  [ping] fetches the node version only when it activates the
    service: it sends one version request if the permit was free, the
    service was inactive, the sync-status call succeeded and no version
    was cached, and none otherwise. *)
Theorem ping_fetches_version_on_activation_only ctx s w :
  version_fetches (ping ctx) (s, w)
  = if permit_free s && negb (connectionActive s)
       && match fst (take_syncing w) with Ok _ => true | Fail _ => false end
       && (nodeVersion s =? "")%string
    then 1%nat else 0%nat.
Proof.
  unfold version_fetches. cbn [snd].
  ping_paths ctx s w; cbn [fst snd andb negb].
  - rewrite !occurrences_emit, trace_after_syncing, occurrences_app.
    cbn. lia.
  - rewrite !occurrences_emit.
    pose proof (checkDVT_fetches_background s (after_syncing w)) as Hdvt.
    unfold world_after, execState in Hdvt. rewrite Hdvt.
    rewrite trace_after_syncing, occurrences_app.
    destruct (nodeVersion s =? "")%string; cbn; lia.
  - rewrite !occurrences_emit, trace_after_syncing, occurrences_app.
    cbn. lia.
  - rewrite !occurrences_emit, trace_after_syncing, occurrences_app.
    cbn. lia.
  - rewrite !occurrences_emit. cbn. lia.
Qed.

(** X5.  [ping] empties genesis, spec, deposit contract and fork
    schedule exactly when it takes an active service to inactive
    (permit free, service active, sync-status call failed); on every
    other path it leaves them as they are. *)
Theorem ping_clears_on_deactivation_only ctx s w :
  let s' := service_after (ping ctx) (s, w) in
  let cleared :=
    permit_free s && connectionActive s
    && match fst (take_syncing w) with Ok _ => false | Fail _ => true end in
  genesis s' = (if cleared then None else genesis s) /\
  spec s' = (if cleared then None else spec s) /\
  depositContract s' = (if cleared then None else depositContract s) /\
  forkSchedule s' = (if cleared then None else forkSchedule s) /\
  (cleared = true -> nodeVersion s' = ""%string).
Proof.
  cbv zeta.
  ping_paths ctx s w; cbn [fst snd andb]; try (repeat split; discriminate).
  pose proof (checkDVT_frame context_Background (s, after_syncing w))
    as (_ & _ & _ & Hg & Hsp & Hdc & Hfs).
  unfold service_after, execState in *. cbn [fst] in *.
  cbn [genesis spec depositContract forkSchedule set_conn].
  repeat split; try assumption. discriminate.
Qed.

(** X6.  [assertIsActive] on an active service returns nil and touches
    nothing; otherwise it is one [ping], which probes once when the
    permit is free, followed by [ErrNotActive] if the stored state is
    still inactive and nil if not. *)
Theorem assertIsActive_guard ctx s w :
  runState (assertIsActive ctx) (s, w)
  = (if connectionActive s then (None, (s, w))
     else (active_guard (service_after (ping ctx) (s, w)),
           execState (ping ctx) (s, w))) /\
  probes (assertIsActive ctx) (s, w)
  = (if connectionActive s then 0%nat
     else if permit_free s then 1%nat else 0%nat).
Proof.
  unfold probes, world_after, execState.
  rewrite run_assertIsActive. cbv zeta.
  destruct (connectionActive s).
  - split; [reflexivity|]. cbn [fst snd]. lia.
  - split; [reflexivity|]. cbn [fst snd].
    pose proof (ping_sends_probe ctx s w) as Hcount.
    unfold world_after in Hcount. rewrite Hcount.
    destruct (permit_free s); lia.
Qed.

Lemma guards_answers ctx st :
  evalState (assertIsActive ctx) st
  = (if connectionActive (service_after (assertIsActive ctx) st)
     then None else Some ErrNotActive) /\
  (evalState (assertIsSynced ctx) st = None /\
     connectionSynced (service_after (assertIsSynced ctx) st) = true \/
   evalState (assertIsSynced ctx) st = Some ErrNotActive /\
     connectionActive (service_after (assertIsSynced ctx) st) = false \/
   evalState (assertIsSynced ctx) st = Some ErrNotSynced /\
     connectionActive (service_after (assertIsSynced ctx) st) = true /\
     connectionSynced (service_after (assertIsSynced ctx) st) = false).
Proof.
  destruct st as [s w]. unfold evalState, service_after, execState.
  rewrite run_assertIsActive, run_assertIsSynced. cbv zeta. split.
  - destruct (connectionActive s) eqn:Hactive; cbn [fst snd].
    + rewrite Hactive. reflexivity.
    + destruct (connectionActive (fst (execState (ping ctx) (s, w))));
        reflexivity.
  - destruct (connectionSynced s) eqn:Hsynced; cbn [fst snd].
    + left. split; [reflexivity|assumption].
    + unfold synced_guard.
      destruct (connectionActive (fst (execState (ping ctx) (s, w)))) eqn:Ha;
        cbn [negb].
      * destruct (connectionSynced (fst (execState (ping ctx) (s, w))))
          eqn:Hs; cbn [negb]; [left|right; right]; repeat split.
      * right; left. repeat split.
Qed.

(** X7.  The answer of a guard agrees with the state it leaves behind:
    [assertIsActive] returns nil exactly when [IsActive] is then true
    and [ErrNotActive] otherwise; [assertIsSynced] returns
    [ErrNotActive] only if the service is then inactive, [ErrNotSynced]
    only if it is then active and not synced, nil only if [IsSynced] is
    then true, and nothing else. *)
Theorem guards_agree_with_state ctx st :
  let ra := evalState (assertIsActive ctx) st in
  let sa := service_after (assertIsActive ctx) st in
  let rs := evalState (assertIsSynced ctx) st in
  let ss := service_after (assertIsSynced ctx) st in
  ra = (if connectionActive sa then None else Some ErrNotActive) /\
  (rs = None /\ connectionSynced ss = true \/
   rs = Some ErrNotActive /\ connectionActive ss = false \/
   rs = Some ErrNotSynced /\ connectionActive ss = true /\
     connectionSynced ss = false).
Proof. cbv zeta. apply guards_answers. Qed.

(** X8.  A guard that has succeeded succeeds again at once: after
    [assertIsActive] (or [assertIsSynced]) has returned nil, the same
    guard, under any context, returns nil and leaves service and world
    untouched. *)
Theorem guard_success_is_stable ctx ctx' st :
  (evalState (assertIsActive ctx) st = None ->
   runState (assertIsActive ctx') (execState (assertIsActive ctx) st)
   = (None, execState (assertIsActive ctx) st)) /\
  (evalState (assertIsSynced ctx) st = None ->
   runState (assertIsSynced ctx') (execState (assertIsSynced ctx) st)
   = (None, execState (assertIsSynced ctx) st)).
Proof.
  pose proof (guards_answers ctx st) as Hagree.
  destruct Hagree as [Hactive Hsynced]. unfold service_after in *.
  split; intros Hnil.
  - destruct (execState (assertIsActive ctx) st) as [s1 w1]. cbn [fst] in *.
    rewrite run_assertIsActive.
    destruct (connectionActive s1); [reflexivity|].
    rewrite Hnil in Hactive. discriminate.
  - destruct (execState (assertIsSynced ctx) st) as [s1 w1]. cbn [fst] in *.
    rewrite run_assertIsSynced.
    destruct Hsynced as [[_ Hs]|[[Hr _]|[Hr _]]];
      [rewrite Hs; reflexivity| |]; rewrite Hnil in Hr; discriminate.
Qed.

(** X9.  Only the calls that run [ping] change the stored connection
    state: every other call leaves [connectionActive] and
    [connectionSynced] as they are, publishes nothing to the metrics
    and starts no goroutine (the only events it may add are requests to
    the node). *)
Theorem connection_state_changes_only_by_ping c st :
  pings c = false ->
  connectionActive (service_after (call c) st) = connectionActive (fst st) /\
  connectionSynced (service_after (call c) st) = connectionSynced (fst st) /\
  (forall e, Event_eqb e EvNodeVersion = false ->
             Event_eqb e EvNodeSyncing = false ->
             occurrences e (trace (world_after (call c) st))
             = occurrences e (trace (snd st))).
Proof.
  destruct c; cbn [pings]; try discriminate; intros _;
    unfold service_after, world_after, execState, call;
    rewrite run_bind || idtac;
    unfold evalState, execState; cbn [runState ret Monad_state snd fst].
  - destruct st; repeat split.
  - pose proof (checkDVT_frame ctx st) as (_ & Ha & Hs & _).
    destruct (checkDVT_trace_extends ctx st) as (t & Htrace & Hnone).
    unfold service_after, world_after, execState in *.
    repeat split; try assumption.
    intros ev Hv _. rewrite Htrace, occurrences_app, Hnone by assumption. lia.
  - destruct st as [s w]. rewrite run_NodeVersion.
    destruct (negb (nodeVersion s =? "")%string); [repeat split|].
    destruct (ctx_Err ctx); [repeat split|].
    destruct (fst (take_version w)) as [version|err]; cbn [fst snd];
      (split; [reflexivity|]; split; [reflexivity|]); intros ev Hv _;
      rewrite trace_take_version, occurrences_app, occurrences_single, Hv;
      lia.
  - destruct st as [s w]. unfold NodeSyncing.
    destruct (ctx_Err ctx); [repeat split|].
    pose proof (trace_after_syncing w) as Htrace. unfold after_syncing in Htrace.
    cbn -[occurrences take_syncing emit].
    destruct (take_syncing (emit EvNodeSyncing w)) as [r w1].
    cbn -[occurrences] in *.
    split; [reflexivity|]. split; [reflexivity|]. intros ev _ Hp.
    rewrite Htrace, occurrences_app, occurrences_single, Hp. lia.
  - repeat split.
  - repeat split.
  - repeat split.
  - repeat split.
Qed.

(** X10.  Single flight: on a gate as [New] builds it, once one [ping]
    has taken the permit any other [ping] finds the gate busy and sends
    neither a sync-status nor a version request. *)
Theorem ping_single_flight ctx s w :
  pingSem s = semaphore.NewWeighted 1 ->
  let held := set_pingSem (snd (semaphore.TryAcquire 1 (pingSem s))) s in
  fst (semaphore.TryAcquire 1 (pingSem s)) = true /\
  permit_free held = false /\
  probes (ping ctx) (held, w) = 0%nat /\
  version_fetches (ping ctx) (held, w) = 0%nat.
Proof.
  intros Hnew held.
  assert (Hbusy : permit_free held = false).
  { unfold held, permit_free. cbn [pingSem set_pingSem set_conn].
    rewrite Hnew. reflexivity. }
  split; [rewrite Hnew; reflexivity|]. split; [exact Hbusy|].
  unfold probes, version_fetches, world_after, execState.
  rewrite (run_ping_busy ctx held w Hbusy). cbn [fst snd].
  rewrite !occurrences_emit. cbn. split; lia.
Qed.

End Further.

(** ** Further properties of construction *)

Lemma prefix_append (p a b : string) :
  String.prefix p a = true -> String.prefix p (String.append a b) = true.
Proof.
  revert p. induction a as [|c a IH]; intros p Hp.
  - destruct p; [|discriminate]. destruct b; reflexivity.
  - destruct p as [|d p]; [reflexivity|].
    cbn in *. destruct (ascii_dec d c); [|discriminate]. apply IH, Hp.
Qed.

Lemma length_append (s t : string) :
  String.length (String.append s t) = (String.length s + String.length t)%nat.
Proof. induction s as [|c s IH]; cbn; [reflexivity|]. rewrite IH. reflexivity. Qed.

Lemma substring_whole (t : string) : String.substring 0 (String.length t) t = t.
Proof. induction t as [|c t IH]; cbn; [reflexivity|]. rewrite IH. reflexivity. Qed.

Lemma substring_append_tail (s t : string) :
  String.substring (String.length s) (String.length t) (String.append s t) = t.
Proof.
  induction s as [|c s IH]; cbn.
  - apply substring_whole.
  - exact IH.
Qed.

Lemma HasSuffix_append (s t : string) :
  strings_HasSuffix (String.append s t) t = true.
Proof.
  unfold strings_HasSuffix. rewrite length_append.
  replace (String.length s + String.length t - String.length t)%nat
    with (String.length s) by lia.
  rewrite substring_append_tail, String.eqb_refl, andb_true_r.
  apply Nat.leb_le. lia.
Qed.

(** X11.  The address [New] parses always starts with "http" and ends
    with "/", and normalizing is idempotent: an address that is already
    in that form is handed to [url.Parse] as it is. *)
Theorem normalize_address_normal (a : string) :
  strings_HasPrefix (normalize_address a) "http" = true /\
  strings_HasSuffix (normalize_address a) "/" = true /\
  normalize_address (normalize_address a) = normalize_address a /\
  (strings_HasPrefix a "http" = true -> strings_HasSuffix a "/" = true ->
   normalize_address a = a).
Proof.
  assert (Hfixed : forall x,
            strings_HasPrefix x "http" = true ->
            strings_HasSuffix x "/" = true ->
            normalize_address x = x).
  { intros x Hp Hs. unfold normalize_address. rewrite Hp. cbn [negb].
    rewrite Hs. reflexivity. }
  assert (Hprefix : strings_HasPrefix (normalize_address a) "http" = true).
  { unfold normalize_address.
    set (a1 := if negb (strings_HasPrefix a "http")
               then String.append "http://" a else a).
    assert (H1 : strings_HasPrefix a1 "http" = true).
    { unfold a1. destruct (strings_HasPrefix a "http") eqn:Hp; cbn [negb].
      - exact Hp.
      - unfold strings_HasPrefix. cbn. destruct a; reflexivity. }
    destruct (strings_HasSuffix a1 "/"); cbn [negb]; [exact H1|].
    unfold strings_HasPrefix in *. apply prefix_append, H1. }
  assert (Hsuffix : strings_HasSuffix (normalize_address a) "/" = true).
  { unfold normalize_address.
    set (a1 := if negb (strings_HasPrefix a "http")
               then String.append "http://" a else a).
    destruct (strings_HasSuffix a1 "/") eqn:Hs; cbn [negb]; [exact Hs|].
    apply HasSuffix_append. }
  split; [exact Hprefix|]. split; [exact Hsuffix|].
  split; [apply Hfixed; assumption | apply Hfixed].
Qed.

Section Construction.

Context {Genesis DepositContract Fork SpecValue URL Monitor Param : Type}.

Local Abbreviation Svc := (Service Genesis DepositContract Fork SpecValue URL).
Local Abbreviation St := (Svc * World)%type.

Variable parseAndCheckParameters : list Param -> Result (parameters Monitor).
Variable registerMetrics : Context -> Monitor -> option error.
Variable url_Parse : string -> Result URL.

Implicit Types (s : Svc) (w : World) (st : St) (ctx : Context).

(** [New] once parameters, metrics and URL are in order. *)
Lemma New_reached ctx params w p b :
  parseAndCheckParameters params = Ok p ->
  match p_monitor p with
  | Some monitor => registerMetrics ctx monitor
  | None => None
  end = None ->
  url_Parse (normalize_address (p_address p)) = Ok b ->
  (New (Genesis:=Genesis) (DepositContract:=DepositContract) (Fork:=Fork)
       (SpecValue:=SpecValue) parseAndCheckParameters registerMetrics
       url_Parse ctx params w)
  = let st' := execState (ping ctx) ((new_Service p b : Svc), w) in
    if negb (connectionActive (fst st')) && negb (p_allowDelayedStart p)
    then ((None, Some ErrNotActive), snd st')
    else ((Some (fst st'), None), started (snd st')).
Proof.
  intros Hparse Hmetrics Hurl. unfold New. rewrite Hparse, Hmetrics, Hurl.
  unfold execState.
  destruct (runState (ping ctx) (new_Service p b, w)) as [[] [s1 w1]].
  unfold IsActive. rewrite run_read. reflexivity.
Qed.

(** [New] when one of them is not. *)
Lemma New_early ctx params w :
  (exists p b,
     parseAndCheckParameters params = Ok p /\
     match p_monitor p with
     | Some monitor => registerMetrics ctx monitor
     | None => None
     end = None /\
     url_Parse (normalize_address (p_address p)) = Ok b) \/
  (exists err, (New (Genesis:=Genesis) (DepositContract:=DepositContract) (Fork:=Fork)
       (SpecValue:=SpecValue) parseAndCheckParameters registerMetrics
       url_Parse ctx params w) = ((None, Some err), w)).
Proof.
  unfold New.
  destruct (parseAndCheckParameters params) as [p|err];
    [|right; eexists; reflexivity].
  destruct (match p_monitor p with
            | Some monitor => registerMetrics ctx monitor
            | None => None
            end) as [err|] eqn:Hmetrics; [right; eexists; reflexivity|].
  destruct (url_Parse (normalize_address (p_address p))) as [b|err] eqn:Hurl;
    [|right; eexists; reflexivity].
  left. exists p, b. repeat split; assumption.
Qed.

Lemma ping_starts_nothing ctx st task :
  occurrences (EvGo task) (trace (world_after (ping ctx) st))
  = occurrences (EvGo task) (trace (snd st)).
Proof.
  destruct st as [s w]. cbn [snd]. unfold world_after, execState.
  assert (Hother : Event_eqb (EvGo task) EvNodeVersion = false)
    by (destruct task; reflexivity).
  assert (Hprobe : occurrences (EvGo task) [EvNodeSyncing] = 0%nat)
    by (destruct task; reflexivity).
  assert (Hactive : forall b, Event_eqb (EvGo task) (EvMonitorActive b) = false)
    by (destruct task; reflexivity).
  assert (Hsynced : forall b, Event_eqb (EvGo task) (EvMonitorSynced b) = false)
    by (destruct task; reflexivity).
  destruct (permit_free s) eqn:Hgate.
  - destruct (fst (take_syncing w)) as [data|err] eqn:Hreply,
      (connectionActive s) eqn:Hwas.
    + rewrite (run_ping_steady ctx s w Hgate Hwas Hreply). cbn [fst snd].
      rewrite !occurrences_emit, trace_after_syncing, occurrences_app.
      rewrite Hprobe, Hactive, Hsynced. lia.
    + rewrite (run_ping_activation ctx s w Hgate Hwas Hreply). cbv zeta.
      rewrite run_ping_commit. cbn [fst snd]. rewrite !occurrences_emit.
      destruct (checkDVT_trace_extends context_Background (s, after_syncing w))
        as (t & Htrace & Hnone).
      unfold world_after, execState in Htrace. rewrite Htrace.
      cbn [snd]. rewrite occurrences_app, Hnone by assumption.
      rewrite trace_after_syncing, occurrences_app.
      rewrite Hprobe, Hactive, Hsynced. lia.
    + rewrite (run_ping_deactivation ctx s w Hgate Hwas Hreply). cbn [fst snd].
      rewrite !occurrences_emit, trace_after_syncing, occurrences_app.
      rewrite Hprobe, Hactive, Hsynced. lia.
    + rewrite (run_ping_still_down ctx s w Hgate Hwas Hreply). cbn [fst snd].
      rewrite !occurrences_emit, trace_after_syncing, occurrences_app.
      rewrite Hprobe, Hactive, Hsynced. lia.
  - rewrite run_ping_busy by assumption. cbn [fst snd].
    rewrite !occurrences_emit, Hactive, Hsynced. lia.
Qed.

Lemma started_once w task :
  occurrences (EvGo task) (trace (started w))
  = S (occurrences (EvGo task) (trace w)).
Proof.
  unfold started. rewrite !occurrences_emit. destruct task; cbn; lia.
Qed.

(** X12.  [New] returns either a service and no error, or an error and
    no service, never both and never neither. *)
Theorem New_service_xor_error ctx params w :
  let r := fst (New (Genesis:=Genesis) (DepositContract:=DepositContract) (Fork:=Fork)
       (SpecValue:=SpecValue) parseAndCheckParameters registerMetrics
       url_Parse ctx params w) in
  (fst r = None /\ snd r <> None) \/ (fst r <> None /\ snd r = None).
Proof.
  cbv zeta.
  destruct (New_early ctx params w) as [(p & b & Hp & Hm & Hu)|[err Herr]].
  - rewrite (@New_reached ctx params w _ _ Hp Hm Hu). cbv zeta.
    destruct (negb _ && negb _); cbn [fst snd]; [left|right];
      split; congruence.
  - rewrite Herr. left. cbn. split; congruence.
Qed.

(** X13.  [New] starts its three goroutines (the two periodic loops and
    the closer) once each when it returns a service, and none of them
    when it returns an error. *)
Theorem New_starts_goroutines_with_service ctx params w task :
  occurrences (EvGo task) (trace (snd (New (Genesis:=Genesis) (DepositContract:=DepositContract) (Fork:=Fork)
       (SpecValue:=SpecValue) parseAndCheckParameters registerMetrics
       url_Parse ctx params w)))
  = (occurrences (EvGo task) (trace w)
     + match fst (fst (New (Genesis:=Genesis) (DepositContract:=DepositContract) (Fork:=Fork)
       (SpecValue:=SpecValue) parseAndCheckParameters registerMetrics
       url_Parse ctx params w)) with
       | Some _ => 1
       | None => 0
       end)%nat.
Proof.
  destruct (New_early ctx params w) as [(p & b & Hp & Hm & Hu)|[err Herr]].
  - rewrite (@New_reached ctx params w _ _ Hp Hm Hu). cbv zeta.
    pose proof (ping_starts_nothing ctx ((new_Service p b : Svc), w) task)
      as Hping.
    unfold world_after in Hping. cbn [snd] in Hping.
    destruct (negb _ && negb _); cbn [fst snd].
    + rewrite Hping. lia.
    + rewrite started_once, Hping. lia.
  - rewrite Herr. cbn [fst snd]. lia.
Qed.

(** X14.  When parameters, metrics registration and URL are in order,
    [New] sends exactly one sync-status request, whatever the caller's
    context, the delayed-start flag and the node's answer; when one of
    them fails, [New] returns before any request and leaves the world
    as it is. *)
Theorem New_probes_once ctx params w :
  (forall p b,
     parseAndCheckParameters params = Ok p ->
     match p_monitor p with
     | Some monitor => registerMetrics ctx monitor
     | None => None
     end = None ->
     url_Parse (normalize_address (p_address p)) = Ok b ->
     occurrences EvNodeSyncing (trace (snd (New (Genesis:=Genesis) (DepositContract:=DepositContract) (Fork:=Fork)
       (SpecValue:=SpecValue) parseAndCheckParameters registerMetrics
       url_Parse ctx params w)))
     = S (occurrences EvNodeSyncing (trace w))) /\
  ((exists err, parseAndCheckParameters params = Fail err) ->
   snd (New (Genesis:=Genesis) (DepositContract:=DepositContract) (Fork:=Fork)
       (SpecValue:=SpecValue) parseAndCheckParameters registerMetrics
       url_Parse ctx params w) = w) /\
  (forall p err,
     parseAndCheckParameters params = Ok p ->
     url_Parse (normalize_address (p_address p)) = Fail err ->
     snd (New (Genesis:=Genesis) (DepositContract:=DepositContract) (Fork:=Fork)
       (SpecValue:=SpecValue) parseAndCheckParameters registerMetrics
       url_Parse ctx params w) = w).
Proof.
  split; [|split].
  - intros p b Hp Hm Hu. rewrite (@New_reached ctx params w _ _ Hp Hm Hu). cbv zeta.
    pose proof (ping_sends_probe ctx (new_Service p b : Svc) w) as Hcount.
    unfold world_after in Hcount.
    assert (Hfree : permit_free (new_Service p b : Svc) = true) by reflexivity.
    rewrite Hfree in Hcount.
    destruct (negb _ && negb _); cbn [fst snd].
    + rewrite Hcount. lia.
    + unfold started. rewrite !occurrences_emit, Hcount. cbn. lia.
  - intros [err Herr]. unfold New. rewrite Herr. reflexivity.
  - intros p err Hp Hu. unfold New. rewrite Hp, Hu.
    destruct (match p_monitor p with
              | Some monitor => registerMetrics ctx monitor
              | None => None
              end); reflexivity.
Qed.

(** X15.  A service returned by [New] is active unless delayed start was
    allowed; it holds no genesis, spec, deposit contract or fork
    schedule yet, and its middleware flag is set only if it is active. *)
Theorem New_service_state ctx params w s w' p :
  (New (Genesis:=Genesis) (DepositContract:=DepositContract) (Fork:=Fork)
       (SpecValue:=SpecValue) parseAndCheckParameters registerMetrics
       url_Parse ctx params w) = ((Some s, None), w') ->
  parseAndCheckParameters params = Ok p ->
  (p_allowDelayedStart p = false -> connectionActive s = true) /\
  genesis s = None /\ spec s = None /\
  depositContract s = None /\ forkSchedule s = None /\
  (connectedToDVTMiddleware s = true -> connectionActive s = true).
Proof.
  intros Hnew Hp.
  destruct (New_early ctx params w) as [(p' & b & Hp' & Hm & Hu)|[err Herr]];
    [|rewrite Herr in Hnew; discriminate].
  rewrite Hp in Hp'. injection Hp' as <-.
  rewrite (@New_reached ctx params w _ _ Hp Hm Hu) in Hnew. cbv zeta in Hnew.
  destruct (negb (connectionActive _) && negb (p_allowDelayedStart p))
    eqn:Hgate; [discriminate|].
  injection Hnew as Hs Hw. rewrite <- Hs in *. clear Hs Hw.
  split.
  { intros Hstrict. rewrite Hstrict in Hgate.
    destruct (connectionActive _); [reflexivity|discriminate]. }
  clear Hgate. unfold execState.
  set (s0 := new_Service p b : Svc).
  assert (Hfree : permit_free s0 = true) by reflexivity.
  assert (Hwas : connectionActive s0 = false) by reflexivity.
  destruct (fst (take_syncing w)) as [data|err] eqn:Hreply.
  - rewrite (run_ping_activation ctx s0 w Hfree Hwas Hreply). cbv zeta.
    rewrite run_ping_commit.
    cbn [fst snd genesis spec depositContract forkSchedule connectionActive
           connectedToDVTMiddleware set_conn].
    pose proof (checkDVT_frame context_Background (s0, after_syncing w))
      as (_ & _ & _ & Hg & Hsp & Hdc & Hfs).
    unfold service_after, execState in *. cbn [fst] in *.
    rewrite Hg, Hsp, Hdc, Hfs. repeat split.
    unfold checkDVT. rewrite run_bind. unfold evalState, execState.
    rewrite run_NodeVersion. cbn [nodeVersion s0 new_Service String.eqb negb
                                    ctx_Err].
    destruct (fst (take_version (after_syncing w))) as [version|verr];
      cbn [fst snd]; [|discriminate].
    intros _.
    destruct (strings_Contains (strings_ToLower version) "charon");
      reflexivity.
  - rewrite (run_ping_still_down ctx s0 w Hfree Hwas Hreply).
    cbn. repeat split. discriminate.
Qed.

End Construction.

(** ** The periodic loops and the YAML form *)

Section LoopFacts.

Context {Genesis DepositContract Fork SpecValue URL : Type}.

Local Abbreviation Svc := (Service Genesis DepositContract Fork SpecValue URL).
Local Abbreviation St := (Svc * World)%type.

Implicit Types (s : Svc) (w : World) (st : St) (ctx : Context).

Lemma run_periodicPing_tick ctx rest st :
  runState (periodicPing_goroutine ctx (Tick :: rest)) st
  = runState (periodicPing_goroutine ctx rest) (execState (ping ctx) st).
Proof. cbn [periodicPing_goroutine]. rewrite run_bind. reflexivity. Qed.

(** X16.  The probe loop pings once per tick and only stops at done: on
    a service whose permit is free, the ticks served before the first
    done send one sync-status request each, whatever the node answers,
    and hand the permit back; what the loop receives after done has no
    effect. *)
Theorem periodicPing_probes_every_tick ctx events st :
  permit_free (fst st) = true ->
  occurrences EvNodeSyncing
    (trace (world_after (periodicPing_goroutine ctx events) st))
  = (occurrences EvNodeSyncing (trace (snd st)) + ticks_served events)%nat /\
  permit_free (service_after (periodicPing_goroutine ctx events) st) = true /\
  forall later,
    runState (periodicPing_goroutine ctx (events ++ Done :: later)) st
    = runState (periodicPing_goroutine ctx (events ++ [Done])) st.
Proof.
  revert st. induction events as [|[|] rest IH]; intros st Hfree.
  - unfold world_after, service_after, execState. cbn -[occurrences].
    split; [lia|]. split; [exact Hfree|reflexivity].
  - unfold world_after, service_after, execState.
    cbn [app]. rewrite !run_periodicPing_tick. unfold execState.
    assert (Hnext : permit_free (fst (snd (runState (ping ctx) st))) = true).
    { unfold permit_free. pose proof (ping_gate ctx st) as Hgate.
      unfold service_after, execState in Hgate. rewrite Hgate. exact Hfree. }
    destruct (IH _ Hnext) as (Hcount & Hgate & Hdone).
    unfold world_after, service_after, execState in Hcount, Hgate.
    split; [|split].
    + rewrite Hcount. destruct st as [s w].
      pose proof (ping_sends_probe ctx s w) as Hping.
      unfold world_after, execState in Hping. cbn [fst] in Hfree.
      rewrite Hping, Hfree. cbn [ticks_served snd]. lia.
    + exact Hgate.
    + intros later. rewrite !run_periodicPing_tick. apply Hdone.
  - unfold world_after, service_after, execState. cbn -[occurrences].
    split; [lia|]. split; [exact Hfree|reflexivity].
Qed.

(** X17.  The eviction loop only empties the static values: after at
    least one tick before done they are all empty, the rest of the
    service (connection state, middleware flag, gate) and the world are
    as before, and no request is sent. *)
Theorem periodicClearStaticValues_only_clears ctx events s w :
  runState (periodicClearStaticValues_goroutine ctx events) (s, w)
  = (tt,
     (match ticks_served events with
      | O => s
      | S _ => set_static None None None None "" s
      end, w)) /\
  connectionActive
    (service_after (periodicClearStaticValues_goroutine ctx events) (s, w))
  = connectionActive s /\
  connectionSynced
    (service_after (periodicClearStaticValues_goroutine ctx events) (s, w))
  = connectionSynced s /\
  connectedToDVTMiddleware
    (service_after (periodicClearStaticValues_goroutine ctx events) (s, w))
  = connectedToDVTMiddleware s.
Proof.
  assert (Hrun : forall events s,
            runState (periodicClearStaticValues_goroutine ctx events) (s, w)
            = (tt,
               (match ticks_served events with
                | O => s
                | S _ => set_static None None None None "" s
                end, w))).
  { clear events s. induction events as [|[|] rest IH]; intros s.
    - reflexivity.
    - cbn [periodicClearStaticValues_goroutine ticks_served].
      rewrite run_bind. unfold evalState, execState.
      change (snd (runState clearStaticValues (s, w)))
        with (set_static None None None None "" s, w).
      rewrite IH. destruct (ticks_served rest); reflexivity.
    - reflexivity. }
  unfold service_after, execState. rewrite Hrun. cbn [fst snd].
  split; [reflexivity|].
  destruct (ticks_served events); repeat split.
Qed.

End LoopFacts.

Lemma ReplaceAll_byte_length s old new :
  List.length (electra.bytes_ReplaceAll_byte s old new) = List.length s.
Proof. unfold electra.bytes_ReplaceAll_byte. apply length_map. Qed.

Lemma ReplaceAll_byte_gone s old new :
  new <> old -> ~ In old (electra.bytes_ReplaceAll_byte s old new).
Proof.
  intros Hdiff Hin. unfold electra.bytes_ReplaceAll_byte in Hin.
  apply in_map_iff in Hin. destruct Hin as (b & Hb & _).
  destruct (Byte.eqb b old) eqn:Heq.
  - exact (Hdiff Hb).
  - rewrite (Byte.byte_dec_lb Hb) in Heq. discriminate.
Qed.

(** X18.  [MarshalYAML] passes an encoder error on unchanged, with no
    bytes; otherwise it returns the encoder's bytes with every double
    quote turned into a single quote: the output has the same length,
    holds no double quote, and differs from the encoder's output only
    where that had a double quote. *)
Theorem MarshalYAML_single_quotes
    (fmt_Sprintf_sharp_x : list Byte.byte -> string)
    (yaml_MarshalWithOptions : electra.depositReceiptYAML -> Result (list Byte.byte))
    (d : electra.DepositReceipt) :
  match yaml_MarshalWithOptions
          (electra.to_depositReceiptYAML fmt_Sprintf_sharp_x d) with
  | Fail err =>
      electra.MarshalYAML fmt_Sprintf_sharp_x yaml_MarshalWithOptions d
      = (None, Some err)
  | Ok yamlBytes =>
      exists out,
        electra.MarshalYAML fmt_Sprintf_sharp_x yaml_MarshalWithOptions d
        = (Some out, None) /\
        List.length out = List.length yamlBytes /\
        ~ In electra.double_quote out /\
        forall i b,
          nth_error yamlBytes i = Some b ->
          nth_error out i
          = Some (if Byte.eqb b electra.double_quote
                  then electra.single_quote else b)
  end.
Proof.
  unfold electra.MarshalYAML.
  destruct (yaml_MarshalWithOptions _) as [yamlBytes|err]; [|reflexivity].
  eexists. split; [reflexivity|]. split; [apply ReplaceAll_byte_length|].
  split; [apply ReplaceAll_byte_gone; discriminate|].
  intros i b Hb. unfold electra.bytes_ReplaceAll_byte.
  rewrite nth_error_map, Hb. reflexivity.
Qed.

(** X19.  A [ping] on a service that is synced only when active leaves
    it so, except on one path: the service was inactive, the permit was
    free, the node reported itself synced and the middleware detection
    failed. *)
Theorem ping_keeps_synced_only_when_active
    (Genesis DepositContract Fork SpecValue URL : Type)
    (ctx : Context)
    (s : Service Genesis DepositContract Fork SpecValue URL) (w : World) :
  (connectionSynced s = true -> connectionActive s = true) ->
  (connectionSynced (service_after (ping ctx) (s, w)) = true ->
   connectionActive (service_after (ping ctx) (s, w)) = true) \/
  (connectionActive s = false /\
   permit_free s = true /\
   exists data err,
     fst (take_syncing w) = Ok data /\
     synced_of data = true /\
     evalState (checkDVT context_Background) (s, after_syncing w) = Some err).
Proof. intros Hinv. exact (ping_invariant_unless_aborted ctx s w Hinv). Qed.

(** ** The further properties at concrete services and nodes *)

Lemma New_gate_stays_free_witness :
  exists s w',
    New parse_first no_metrics parse_url cancelled_ctx
      [local_params true] node_down
    = ((Some (s : Service unit unit unit unit string), None), w') /\
    permit_free
      (service_after
         (calls [CallAssertIsSynced context_Background; CallClearStaticValues])
         (s, node_up)) = true /\
    probes (ping context_Background)
      (execState
         (calls [CallAssertIsSynced context_Background; CallClearStaticValues])
         (s, node_up)) = 1%nat.
Proof.
  pose (r := New (Genesis:=unit) (DepositContract:=unit) (Fork:=unit)
               (SpecValue:=unit) parse_first no_metrics parse_url
               cancelled_ctx [local_params true] node_down).
  assert (Hnew : r = ((Some delayed_service, None), snd r))
    by (vm_compute; reflexivity).
  exists delayed_service, (snd r). split; [exact Hnew|].
  exact (New_gate_stays_free parse_first no_metrics parse_url
           cancelled_ctx [local_params true] node_down Hnew
           [CallAssertIsSynced context_Background; CallClearStaticValues]
           node_up context_Background).
Defined.

Lemma guard_success_is_stable_witness :
  evalState (assertIsSynced context_Background) (fresh_service, node_up) = None /\
  runState (assertIsSynced cancelled_ctx)
    (execState (assertIsSynced context_Background) (fresh_service, node_up))
  = (None,
     execState (assertIsSynced context_Background) (fresh_service, node_up)).
Proof.
  assert (Hnil : evalState (assertIsSynced context_Background)
                   (fresh_service, node_up) = None)
    by (vm_compute; reflexivity).
  split; [exact Hnil|].
  exact (proj2 (guard_success_is_stable context_Background cancelled_ctx
                  (fresh_service, node_up)) Hnil).
Defined.

Lemma connection_state_changes_only_by_ping_witness :
  pings CallClearStaticValues = false /\
  connectionActive
    (service_after (call CallClearStaticValues) (running_service, node_down))
  = true /\
  connectionSynced
    (service_after (call CallClearStaticValues) (running_service, node_down))
  = true.
Proof.
  split; [reflexivity|].
  destruct (connection_state_changes_only_by_ping CallClearStaticValues
              (running_service, node_down) eq_refl) as (Hactive & Hsynced & _).
  split; [exact Hactive | exact Hsynced].
Defined.

Lemma ping_single_flight_witness :
  pingSem fresh_service = semaphore.NewWeighted 1 /\
  probes (ping context_Background)
    (set_pingSem (snd (semaphore.TryAcquire 1 (pingSem fresh_service)))
       fresh_service, node_up) = 0%nat.
Proof.
  split; [reflexivity|].
  destruct (ping_single_flight context_Background fresh_service node_up
              eq_refl) as (_ & _ & Hprobes & _).
  exact Hprobes.
Defined.

Lemma normalize_address_normal_witness :
  strings_HasPrefix "https://node.example:5052/" "http" = true /\
  strings_HasSuffix "https://node.example:5052/" "/" = true /\
  normalize_address "https://node.example:5052/" = "https://node.example:5052/"%string.
Proof.
  split; [reflexivity|]. split; [reflexivity|].
  destruct (normalize_address_normal "https://node.example:5052/")
    as (_ & _ & _ & Hfixed).
  exact (Hfixed eq_refl eq_refl).
Defined.

Lemma New_probes_once_witness :
  occurrences EvNodeSyncing
    (trace (snd (New (Genesis:=unit) (DepositContract:=unit) (Fork:=unit)
                   (SpecValue:=unit) parse_first no_metrics parse_url
                   cancelled_ctx [local_params false] node_down)))
  = 1%nat /\
  snd (New (Genesis:=unit) (DepositContract:=unit) (Fork:=unit)
         (SpecValue:=unit) parse_nothing no_metrics parse_url
         context_Background [local_params false] node_up)
  = node_up /\
  snd (New (Genesis:=unit) (DepositContract:=unit) (Fork:=unit)
         (SpecValue:=unit) parse_first no_metrics parse_no_url
         context_Background [local_params false] node_up)
  = node_up.
Proof.
  split; [|split].
  - exact (proj1 (New_probes_once (Genesis:=unit) (DepositContract:=unit)
                    (Fork:=unit) (SpecValue:=unit)
                    parse_first no_metrics parse_url
                    cancelled_ctx [local_params false] node_down)
             (local_params false) "http://localhost:5052/"%string
             eq_refl eq_refl eq_refl).
  - exact (proj1 (proj2 (New_probes_once (Genesis:=unit) (DepositContract:=unit)
                           (Fork:=unit) (SpecValue:=unit)
                           parse_nothing no_metrics parse_url
                           context_Background [local_params false] node_up))
             (ex_intro _ (errors_New "no address specified") eq_refl)).
  - exact (proj2 (proj2 (New_probes_once (Genesis:=unit) (DepositContract:=unit)
                           (Fork:=unit) (SpecValue:=unit)
                           parse_first no_metrics parse_no_url
                           context_Background [local_params false] node_up))
             (local_params false) (errors_New "missing protocol scheme")
             eq_refl eq_refl).
Defined.

Lemma New_service_state_witness :
  exists s w',
    New parse_first no_metrics parse_url context_Background
      [local_params false] node_up
    = ((Some (s : Service unit unit unit unit string), None), w') /\
    connectionActive s = true /\
    genesis s = None.
Proof.
  pose (r := New (Genesis:=unit) (DepositContract:=unit) (Fork:=unit)
               (SpecValue:=unit) parse_first no_metrics parse_url
               context_Background [local_params false] node_up).
  assert (Hnew : r = ((Some (set_nodeVersion "Charon/v1.0.0"
                               (set_conn (semaphore.NewWeighted 1) true true true
                                  fresh_service)),
                       None), snd r))
    by (vm_compute; reflexivity).
  eexists. exists (snd r). split; [exact Hnew|].
  destruct (New_service_state parse_first no_metrics parse_url
              context_Background [local_params false] node_up
              (p:=local_params false) Hnew eq_refl)
    as (Hactive & Hgenesis & _).
  split; [exact (Hactive eq_refl) | exact Hgenesis].
Defined.

Lemma periodicPing_probes_every_tick_witness :
  permit_free fresh_service = true /\
  occurrences EvNodeSyncing
    (trace (world_after
              (periodicPing_goroutine context_Background
                 [Tick; Tick; Tick; Tick; Done; Tick])
              (fresh_service, node_three_probes)))
  = 4%nat.
Proof.
  split; [reflexivity|].
  exact (proj1 (periodicPing_probes_every_tick context_Background
                  [Tick; Tick; Tick; Tick; Done; Tick]
                  (fresh_service, node_three_probes) eq_refl)).
Defined.

Lemma MarshalYAML_single_quotes_witness :
  exists out,
    electra.MarshalYAML no_hex quoting_encoder empty_receipt = (Some out, None) /\
    List.length out = 5%nat /\
    ~ In electra.double_quote out.
Proof.
  destruct (MarshalYAML_single_quotes no_hex quoting_encoder empty_receipt)
    as (out & Hout & Hlength & Hnone & _).
  exists out. split; [exact Hout|]. split; [exact Hlength | exact Hnone].
Defined.

Lemma ping_keeps_synced_only_when_active_witness :
  (connectionSynced running_service = true ->
   connectionActive running_service = true) /\
  (connectionSynced
     (service_after (ping context_Background) (running_service, node_syncing))
   = true ->
   connectionActive
     (service_after (ping context_Background) (running_service, node_syncing))
   = true).
Proof.
  split; [intros _; reflexivity|].
  destruct (ping_keeps_synced_only_when_active context_Background
              running_service node_syncing (fun _ => eq_refl))
    as [Hkept|(Hinactive & _)].
  - exact Hkept.
  - discriminate Hinactive.
Defined.

(** ** Two goroutines in [ping] *)

Section Interleaving.

Context {Genesis DepositContract Fork SpecValue URL : Type}.

Local Abbreviation Svc := (Service Genesis DepositContract Fork SpecValue URL).
Local Abbreviation St := (Svc * World)%type.

Implicit Types (s : Svc) (w : World) (st : St) (ctx : Context).

Lemma run_interleave_step turn rest (a b : goroutine.Frame) st :
  runState (goroutine.interleave (turn :: rest) a b) st
  = match turn with
    | goroutine.First =>
        runState
          (goroutine.interleave rest
             (evalState (goroutine.ping_step a) st) b)
          (execState (goroutine.ping_step a) st)
    | goroutine.Second =>
        runState
          (goroutine.interleave rest a
             (evalState (goroutine.ping_step b) st))
          (execState (goroutine.ping_step b) st)
    end.
Proof.
  destruct turn; cbn [goroutine.interleave].
  - exact (run_bind (goroutine.ping_step a)
             (fun a' => goroutine.interleave rest a' b) st).
  - exact (run_bind (goroutine.ping_step b)
             (fun b' => goroutine.interleave rest a b') st).
Qed.

(** A goroutine that runs [ping] with nothing in between does what the
    method [ping] does. *)
Lemma goroutine_alone_is_ping ctx (b : goroutine.Frame) st :
  execState (goroutine.interleave goroutine.alone goroutine.enter b) st
  = execState (ping ctx) st /\
  snd (evalState (goroutine.interleave goroutine.alone goroutine.enter b) st)
  = b.
Proof.
  destruct st as [s w].
  unfold goroutine.alone, evalState, execState, ping, ping_probe, ping_commit,
    pingSem_TryAcquire, pingSem_Release, NodeSyncing, monitorActive,
    monitorSynced.
  cbn -[semaphore.TryAcquire semaphore.Release ping_transition take_syncing
        emit].
  destruct (semaphore.TryAcquire 1 (pingSem s)) as [[|] sem'];
    cbn -[semaphore.TryAcquire semaphore.Release ping_transition take_syncing
          emit].
  - destruct (take_syncing (emit EvNodeSyncing w)) as [response w1].
    cbn -[semaphore.TryAcquire semaphore.Release ping_transition take_syncing
          emit].
    destruct (probe_outcome response) as [active synced].
    cbn -[semaphore.TryAcquire semaphore.Release ping_transition take_syncing
          emit].
    match goal with
    | |- context [runState (ping_transition ?c ?a1 ?a2 ?a3 ?a4) ?st0] =>
        destruct (runState (ping_transition c a1 a2 a3 a4) st0)
          as [moved [s2 w2]]
    end.
    split; reflexivity.
  - match goal with
    | |- context [runState (ping_transition ?c ?a1 ?a2 ?a3 ?a4) ?st0] =>
        destruct (runState (ping_transition c a1 a2 a3 a4) st0)
          as [moved [s2 w2]]
    end.
    split; reflexivity.
Qed.

(** What a goroutine that found the gate busy still does, whatever the
    others do in between: its failed [TryAcquire] and its [switch]
    change nothing and send nothing, and its store writes the pair it
    read on entry over whatever is stored by then. *)
Lemma goroutine_busy_ping_steps (f : goroutine.Frame) s w :
  (goroutine.point f = goroutine.AtTryAcquire ->
   permit_free s = false ->
   runState (goroutine.ping_step f) (s, w)
   = (goroutine.with_result goroutine.AtSwitch
        (goroutine.wasActive f) (goroutine.wasSynced f) f, (s, w))) /\
  (goroutine.point f = goroutine.AtSwitch ->
   goroutine.active f = goroutine.wasActive f ->
   goroutine.synced f = goroutine.wasSynced f ->
   runState (goroutine.ping_step f) (s, w)
   = (goroutine.with_result goroutine.AtStore
        (goroutine.active f) (goroutine.synced f) f, (s, w))) /\
  (goroutine.point f = goroutine.AtStore ->
   runState (goroutine.ping_step f) (s, w)
   = (goroutine.at_point goroutine.AtMonitor f,
      (set_conn (pingSem s) (goroutine.active f) (goroutine.synced f)
         (connectedToDVTMiddleware s) s, w))).
Proof.
  split; [|split].
  - intros Hpoint Hbusy. unfold goroutine.ping_step. rewrite Hpoint.
    unfold permit_free in Hbusy.
    pose proof (not_acquired_same _ Hbusy) as Hsem.
    unfold pingSem_TryAcquire. cbn -[semaphore.TryAcquire].
    destruct (semaphore.TryAcquire 1 (pingSem s)) as [acquired sem'].
    cbn [fst snd] in Hbusy, Hsem. subst acquired sem'. cbn.
    unfold set_pingSem. rewrite set_conn_same. reflexivity.
  - intros Hpoint Hactive Hsynced. unfold goroutine.ping_step.
    rewrite Hpoint, Hactive, Hsynced. rewrite run_bind.
    unfold evalState, execState. rewrite ping_transition_unchanged.
    reflexivity.
  - intros Hpoint. unfold goroutine.ping_step. rewrite Hpoint. reflexivity.
Qed.

End Interleaving.

(** C2 (the code departs from it).  A service is active and synced, its
    node has gone away.  One goroutine takes the permit; a second one
    reads the stored pair (true, true) and finds the gate busy.  The
    first finishes: its probe fails, it evicts the static values and
    stores (false, false).  The second, which has sent nothing and run
    no side effect, then stores the pair it read on entry: the stored
    pair goes from (false, false) back to (true, true). *)
Theorem ping_busy_store_overwrites_commit :
  let st0 := (running_service, node_down) in
  let mid :=
    runState
      (goroutine.interleave goroutine.holder_finishes
         goroutine.enter goroutine.enter) st0 in
  let fin :=
    runState
      (goroutine.interleave goroutine.waiter_finishes
         goroutine.enter goroutine.enter) st0 in
  snd (fst mid)
  = {| goroutine.point := goroutine.AtSwitch;
       goroutine.wasActive := true; goroutine.wasSynced := true;
       goroutine.active := true; goroutine.synced := true |} /\
  goroutine.point (fst (fst mid)) = goroutine.AtReturn /\
  connectionActive (fst (snd mid)) = false /\
  connectionSynced (fst (snd mid)) = false /\
  genesis (fst (snd mid)) = None /\
  goroutine.point (snd (fst fin)) = goroutine.AtReturn /\
  connectionActive (fst (snd fin)) = true /\
  connectionSynced (fst (snd fin)) = true /\
  genesis (fst (snd fin)) = None /\
  occurrences EvNodeSyncing (trace (snd (snd fin))) = 1%nat /\
  occurrences EvNodeVersion (trace (snd (snd fin))) = 0%nat.
Proof. vm_compute. repeat split. Qed.
